(** * A CRUD user service: validation, age calculation, in-memory repository

    Shallow embedding of the Go user API
    (internal/validator, internal/service, internal/handler,
    internal/repository and the in-memory MockUserRepository of
    internal/test and cmd/test).

    Conventions.
    - Go's [int] and the calendar fields of [time.Time] are [Z]; an [int32]
      is a [Z] whose wrap-around is written out with [int32].
    - A [time.Time] is represented by its civil fields in UTC, the zone
      [time.Parse] gives to a date without zone; the wall clock is read in
      the same zone.  [time.Now()] is an explicit argument of every function
      that reads the clock.
    - Go strings are byte strings: [string] of the standard library.
    - The repository interface is a type class over an explicit store that
      is passed in and returned (state passing). *)

From Stdlib Require Import ZArith Lia Bool List Ascii String.
From stdpp Require Import base option gmap strings list fin_maps.

Local Open Scope Z_scope.

(** ** Basic Go types *)

(** [int32(z)]: conversion to 32 bits, two's complement wrap-around. *)
Definition int32 (z : Z) : Z := (z + 2 ^ 31) mod 2 ^ 32 - 2 ^ 31.

Definition is_int32 (z : Z) : Prop := - 2 ^ 31 <= z < 2 ^ 31.

(** A Go [error] built by [errors.New] or [fmt.Errorf]; [Error] is its
    message. *)
Inductive error := errorsNew (msg : string).

Definition Error (e : error) : string := let 'errorsNew msg := e in msg.

(** [strings.Join(elems, sep)]. *)
Fixpoint Join (elems : list string) (sep : string) : string :=
  match elems with
  | [] => ""
  | [e] => e
  | e :: rest => e +:+ sep +:+ Join rest sep
  end.

(** [strings.Contains(s, substr)]. *)
Fixpoint Contains (s substr : string) : bool :=
  String.prefix substr s
  || match s with
     | EmptyString => false
     | String _ rest => Contains rest substr
     end.

(** ** time.Time *)

Module time.

(** Civil date and time of day in UTC; [Nanosecond] counts from midnight. *)
Record Time := Date {
  Year : Z;
  Month : Z;
  Day : Z;
  Nanosecond : Z
}.

(** [t.Before(u)]: the instant [t] is strictly earlier than [u].  On civil
    fields of one zone this is the lexicographic order. *)
Definition Before (t u : Time) : bool :=
  (Year t <? Year u)
  || ((Year t =? Year u)
      && ((Month t <? Month u)
          || ((Month t =? Month u)
              && ((Day t <? Day u)
                  || ((Day t =? Day u) && (Nanosecond t <? Nanosecond u)))))).

Definition isLeap (year : Z) : bool :=
  (year mod 4 =? 0) && (negb (year mod 100 =? 0) || (year mod 400 =? 0)).

Definition daysIn (m year : Z) : Z :=
  if (m =? 2) && isLeap year then 29
  else if m =? 2 then 28
  else if (m =? 4) || (m =? 6) || (m =? 9) || (m =? 11) then 30
  else 31.

(** *** time.Parse with the layout "2006-01-02" *)

Definition isDigit (c : ascii) : bool :=
  (48 <=? nat_of_ascii c)%nat && (nat_of_ascii c <=? 57)%nat.

Definition digit (c : ascii) : Z := Z.of_nat (nat_of_ascii c) - 48.

(** [getnum(s, true)]: exactly two digits. *)
Definition getnum (s : string) : option (Z * string) :=
  match s with
  | String a (String b rest) =>
      if isDigit a && isDigit b then Some (digit a * 10 + digit b, rest)
      else None
  | _ => None
  end.

(** The four-digit year of [stdLongYear]. *)
Definition getyear (s : string) : option (Z * string) :=
  match s with
  | String a (String b (String c (String d rest))) =>
      if isDigit a && isDigit b && isDigit c && isDigit d
      then Some (((digit a * 10 + digit b) * 10 + digit c) * 10 + digit d, rest)
      else None
  | _ => None
  end.

(** [skip(value, "-")]. *)
Definition skip (s : string) : option string :=
  match s with
  | String c rest => if Ascii.eqb c "-" then Some rest else None
  | EmptyString => None
  end.

(** [time.Parse("2006-01-02", s)]; [None] stands for a non-nil error. *)
Definition Parse (s : string) : option Time :=
  '(year, s) ← getyear s;
  s ← skip s;
  '(month, s) ← getnum s;
  s ← skip s;
  '(day, s) ← getnum s;
  match s with
  | EmptyString =>
      if (month <=? 0) || (12 <? month) then None
      else if (day <? 1) || (daysIn month year <? day) then None
      else Some (Date year month day 0)
  | String _ _ => None
  end.

End time.

Import time.

(** ** unicode/utf8 *)

Module utf8.

Local Open Scope nat_scope.

(** The table [first] joined with [acceptRanges]: for a leading byte, the
    length of the sequence and the range of its second byte; [None] for ASCII
    and for bytes that start no sequence. *)
Definition first (c : nat) : option (nat * (nat * nat)) :=
  if c <? 194 then None
  else if c <? 224 then Some (2, (128, 191))
  else if c =? 224 then Some (3, (160, 191))
  else if c <? 237 then Some (3, (128, 191))
  else if c =? 237 then Some (3, (128, 159))
  else if c <? 240 then Some (3, (128, 191))
  else if c =? 240 then Some (4, (144, 191))
  else if c <? 244 then Some (4, (128, 191))
  else if c =? 244 then Some (4, (128, 143))
  else None.

Definition within (lo hi : nat) (s : string) (i : nat) : bool :=
  match String.get i s with
  | Some c => (lo <=? nat_of_ascii c) && (nat_of_ascii c <=? hi)
  | None => false
  end.

(** Bytes taken by the rune that starts with [c] and goes on in [rest]. *)
Definition runeSize (c : ascii) (rest : string) : nat :=
  match first (nat_of_ascii c) with
  | None => 1
  | Some (size, (lo, hi)) =>
      if String.length rest <? size - 1 then 1
      else if negb (within lo hi rest 0) then 1
      else if size =? 2 then 2
      else if negb (within 128 191 rest 1) then 1
      else if size =? 3 then 3
      else if negb (within 128 191 rest 2) then 1
      else 4
  end.

(** The loop of [RuneCountInString]; [skip] bytes belong to the rune already
    counted. *)
Fixpoint countFrom (skip : nat) (s : string) : nat :=
  match s with
  | EmptyString => 0
  | String c rest =>
      match skip with
      | S k => countFrom k rest
      | O => S (countFrom (runeSize c rest - 1) rest)
      end
  end.

Definition RuneCountInString (s : string) : nat := countFrom 0 s.

End utf8.

(** ** github.com/go-playground/validator/v10: the part the service uses

    The library is a dependency of the repository.  Its engine walks the
    fields of a struct in declaration order and, for each field, the rules of
    its [validate] tag in the order written; the first rule that fails adds one
    [FieldError] and ends the walk of that field ([traverseField] returns). *)

Module playground.

(** What a validation function sees of the field: [fl.Field().String()] and
    [fl.Param()]. *)
Record FieldLevel := { flField : string; flParam : string }.

Definition Func : Type := FieldLevel → bool.

(** One rule of a tag, with the function registered for it. *)
Record cTag := { ctTag : string; ctParam : string; ctFn : Func }.

(** A string field of the validated struct: name, rules, value. *)
Record cField := { cfName : string; cfTags : list cTag; cfValue : string }.

Record FieldError := { Field : string; Tag : string; Param : string }.

(** [asInt(param)] on an unsigned decimal parameter. *)
Definition asInt (param : string) : Z :=
  fold_left (λ acc c, acc * 10 + digit c) (list_ascii_of_string param) 0.

(** "required" on a string: not the zero value. *)
Definition hasValue : Func := λ fl, negb (String.eqb (flField fl) "").

(** "min" on a string: at least [param] runes. *)
Definition hasMinOf : Func :=
  λ fl, asInt (flParam fl) <=? Z.of_nat (utf8.RuneCountInString (flField fl)).

(** "max" on a string: at most [param] runes. *)
Definition hasMaxOf : Func :=
  λ fl, Z.of_nat (utf8.RuneCountInString (flField fl)) <=? asInt (flParam fl).

Fixpoint traverseField (name value : string) (ct : list cTag)
  : list FieldError :=
  match ct with
  | [] => []
  | t :: next =>
      if ctFn t {| flField := value; flParam := ctParam t |}
      then traverseField name value next
      else [ {| Field := name; Tag := ctTag t; Param := ctParam t |} ]
  end.

(** [validate.Struct(data)]: the [ValidationErrors], empty for a nil error. *)
Definition Struct (fields : list cField) : list FieldError :=
  flat_map (λ f, traverseField (cfName f) (cfValue f) (cfTags f)) fields.

End playground.

(** ** internal/validator *)

Module validator.

Import playground.

Definition validateDateFormat : Func :=
  λ fl,
    let dateStr := flField fl in
    match Parse dateStr with
    | Some _ => true
    | None => false
    end.

Definition validateNotFuture (now : Time) : Func :=
  λ fl,
    let dateStr := flField fl in
    match Parse dateStr with
    | None => false
    | Some dob => Before dob now
    end.

Definition getErrorMessage (fe : FieldError) : string :=
  let field := Field fe in
  let tag := Tag fe in
  if String.eqb tag "required" then field +:+ " is required"
  else if String.eqb tag "min"
  then field +:+ " must be at least " +:+ Param fe +:+ " characters"
  else if String.eqb tag "max"
  then field +:+ " must be at most " +:+ Param fe +:+ " characters"
  else if String.eqb tag "dateformat"
  then field +:+ " must be in YYYY-MM-DD format"
  else if String.eqb tag "notfuture"
  then field +:+ " cannot be in the future"
  else field +:+ " is invalid".

Definition formatValidationErrors (validationErrors : list FieldError)
  : string :=
  Join (map getErrorMessage validationErrors) "; ".

(** The rules a tag can name in a validator made by [NewValidator]: the
    built-in ones and the two registered there. *)
Definition rule (tag param : string) (fn : Func) : cTag :=
  {| ctTag := tag; ctParam := param; ctFn := fn |}.

Definition required := rule "required" "" hasValue.
Definition min (p : string) := rule "min" p hasMinOf.
Definition max (p : string) := rule "max" p hasMaxOf.
Definition dateformat := rule "dateformat" "" validateDateFormat.
Definition notfuture (now : Time) := rule "notfuture" "" (validateNotFuture now).

(** [ValidateStruct(data)] on the fields of [data].  No message holds a
    formatting verb, so [fmt.Errorf(msg)] is the error with message [msg]. *)
Definition ValidateStruct (fields : list cField) : option error :=
  match Struct fields with
  | [] => None
  | errs => Some (errorsNew (formatValidationErrors errs))
  end.

End validator.

(** ** db/sqlc: the record types *)

Module User.
Record t := { ID : Z; Name : string; Dob : Time }.
End User.

Module CreateUserParams.
Record t := { Name : string; Dob : Time }.
End CreateUserParams.

Module UpdateUserParams.
Record t := { ID : Z; Name : string; Dob : Time }.
End UpdateUserParams.

(** ** internal/models *)

Module UserResponse.
Record t := { ID : Z; Name : string; DOB : Time; Age : Z }.
End UserResponse.

Module CreateUserRequest.
Record t := { Name : string; DOB : string }.

(** [validate:"required,min=1,max=255"] and
    [validate:"required,dateformat,notfuture"]. *)
Definition fields (now : Time) (req : t) : list playground.cField :=
  [ {| playground.cfName := "Name";
       playground.cfTags :=
         [validator.required; validator.min "1"; validator.max "255"];
       playground.cfValue := Name req |};
    {| playground.cfName := "DOB";
       playground.cfTags :=
         [validator.required; validator.dateformat; validator.notfuture now];
       playground.cfValue := DOB req |} ].
End CreateUserRequest.

Module UpdateUserRequest.
Record t := { Name : string; DOB : string }.

Definition fields (now : Time) (req : t) : list playground.cField :=
  [ {| playground.cfName := "Name";
       playground.cfTags :=
         [validator.required; validator.min "1"; validator.max "255"];
       playground.cfValue := Name req |};
    {| playground.cfName := "DOB";
       playground.cfTags :=
         [validator.required; validator.dateformat; validator.notfuture now];
       playground.cfValue := DOB req |} ].
End UpdateUserRequest.

(** ** internal/repository *)

Module repository.

(** The interface [UserRepository] over a store of type [R]: each method
    takes the store and returns it with its result.  [ListUsers] is left
    out: no property below reads it. *)
Class UserRepository (R : Type) := {
  CreateUser : CreateUserParams.t → R → (User.t + error) * R;
  GetUser : Z → R → (User.t + error) * R;
  UpdateUser : UpdateUserParams.t → R → (User.t + error) * R;
  DeleteUser : Z → R → option error * R
}.

(** A call of the interface, for a record of the calls made. *)
Inductive Call :=
| CallCreateUser (arg : CreateUserParams.t)
| CallGetUser (id : Z)
| CallUpdateUser (arg : UpdateUserParams.t)
| CallDeleteUser (id : Z).

(** A repository that records every call made to it before passing it on. *)
Record Traced (R : Type) := { inner : R; calls : list Call }.
Arguments inner {R} _.
Arguments calls {R} _.

Definition traced {R A} (c : Call) (f : R → A * R) (t : Traced R)
  : A * Traced R :=
  let '(a, r) := f (inner t) in
  (a, {| inner := r; calls := calls t ++ [c] |}).

#[global] Instance Traced_UserRepository {R} `{UserRepository R}
  : UserRepository (Traced R) := {
  CreateUser arg := traced (CallCreateUser arg) (CreateUser arg);
  GetUser id := traced (CallGetUser id) (GetUser id);
  UpdateUser arg := traced (CallUpdateUser arg) (UpdateUser arg);
  DeleteUser id := traced (CallDeleteUser id) (DeleteUser id)
}.

End repository.

(** ** internal/service *)

Module service.

Definition calculateAge (current dob : Time) : Z :=
  let yearsApart := Year current - Year dob in
  if (Month current <? Month dob)
     || ((Month current =? Month dob) && (Day current <? Day dob))
  then yearsApart - 1
  else yearsApart.

Definition response (now : Time) (dbUser : User.t) : UserResponse.t :=
  {| UserResponse.ID := User.ID dbUser;
     UserResponse.Name := User.Name dbUser;
     UserResponse.DOB := User.Dob dbUser;
     UserResponse.Age := calculateAge now (User.Dob dbUser) |}.

Section UserService.

Context {R : Type} `{repository.UserRepository R}.

Definition GetUser (now : Time) (id : Z) (r : R)
  : (UserResponse.t + error) * R :=
  match repository.GetUser id r with
  | (inr err, r) => (inr err, r)
  | (inl dbUser, r) => (inl (response now dbUser), r)
  end.

Definition CreateUser (now : Time) (name : string) (dob : Time) (r : R)
  : (UserResponse.t + error) * R :=
  match repository.CreateUser
          {| CreateUserParams.Name := name; CreateUserParams.Dob := dob |} r with
  | (inr err, r) => (inr err, r)
  | (inl dbUser, r) => (inl (response now dbUser), r)
  end.

Definition UpdateUser (now : Time) (id : Z) (name : string) (dob : Time) (r : R)
  : (UserResponse.t + error) * R :=
  let arg := {| UpdateUserParams.ID := id;
                UpdateUserParams.Name := name;
                UpdateUserParams.Dob := dob |} in
  match repository.UpdateUser arg r with
  | (inr err, r) => (inr err, r)
  | (inl dbUser, r) => (inl (response now dbUser), r)
  end.

(** The log records of [DeleteUser] are a side channel and left out. *)
Definition DeleteUser (id : Z) (r : R) : option error * R :=
  match repository.DeleteUser id r with
  | (Some err, r) => (Some err, r)
  | (None, r) => (None, r)
  end.

End UserService.

End service.

(** ** cmd/test: the copy of the age calculation *)

Module cmd_test.

Definition calculateAge (current dob : Time) : Z :=
  let yearsApart := Year current - Year dob in
  if (Month current <? Month dob)
     || ((Month current =? Month dob) && (Day current <? Day dob))
  then yearsApart - 1
  else yearsApart.

End cmd_test.

(** ** internal/handler *)

Module handler.

(** What a handler writes: the status and the JSON body. *)
Inductive Body :=
| JSONError (msg : string)
| JSONUser (u : UserResponse.t)
| NoBody.

Record Response := { Status : Z; Payload : Body }.

Definition StatusOK : Z := 200.
Definition StatusNoContent : Z := 204.
Definition StatusBadRequest : Z := 400.
Definition StatusNotFound : Z := 404.
Definition StatusInternalServerError : Z := 500.

Definition fail (status : Z) (msg : string) : Response :=
  {| Status := status; Payload := JSONError msg |}.

Section UserHandler.

Context {R : Type} `{repository.UserRepository R}.

(** The request as the framework hands it over: [id] is the result of
    [strconv.ParseInt(c.Params("id"), 10, 32)] and [body] that of
    [c.BodyParser], [None] for a non-nil error.  [nowV] is the clock when the
    validator reads it, [now] when the service builds the response. *)

Definition GetUser (now : Time) (id : option Z) (r : R) : Response * R :=
  match id with
  | None => (fail StatusBadRequest "invalid user id", r)
  | Some id =>
      match service.GetUser now (int32 id) r with
      | (inr err, r) => (fail StatusNotFound "user not found", r)
      | (inl dbUser, r) => ({| Status := StatusOK; Payload := JSONUser dbUser |}, r)
      end
  end.

Definition CreateUser (nowV now : Time) (body : option CreateUserRequest.t)
  (r : R) : Response * R :=
  match body with
  | None => (fail StatusBadRequest "invalid request body", r)
  | Some req =>
      match validator.ValidateStruct (CreateUserRequest.fields nowV req) with
      | Some err => (fail StatusBadRequest (Error err), r)
      | None =>
          match Parse (CreateUserRequest.DOB req) with
          | None => (fail StatusBadRequest "invalid date format (Use YYYY-MM-DD)", r)
          | Some dob =>
              match service.CreateUser now (CreateUserRequest.Name req) dob r with
              | (inr err, r) =>
                  (fail StatusInternalServerError "failed to create user", r)
              | (inl dbUser, r) =>
                  ({| Status := StatusOK; Payload := JSONUser dbUser |}, r)
              end
          end
      end
  end.

Definition UpdateUser (nowV now : Time) (id : option Z)
  (body : option UpdateUserRequest.t) (r : R) : Response * R :=
  match id with
  | None => (fail StatusBadRequest "invalid user id", r)
  | Some id =>
      match body with
      | None => (fail StatusBadRequest "invalid request body", r)
      | Some req =>
          match validator.ValidateStruct (UpdateUserRequest.fields nowV req) with
          | Some err => (fail StatusBadRequest (Error err), r)
          | None =>
              match Parse (UpdateUserRequest.DOB req) with
              | None =>
                  (fail StatusBadRequest "invalid data format (use YYYY-MM-DD)", r)
              | Some dob =>
                  match service.UpdateUser now (int32 id)
                          (UpdateUserRequest.Name req) dob r with
                  | (inr err, r) =>
                      (fail StatusInternalServerError "failed to update user", r)
                  | (inl user, r) =>
                      ({| Status := StatusOK; Payload := JSONUser user |}, r)
                  end
              end
          end
      end
  end.

Definition DeleteUser (id : option Z) (r : R) : Response * R :=
  match id with
  | None => (fail StatusBadRequest "invalid user id", r)
  | Some id =>
      match service.DeleteUser (int32 id) r with
      | (Some err, r) =>
          (fail StatusInternalServerError "failed to delete user", r)
      | (None, r) => ({| Status := StatusNoContent; Payload := NoBody |}, r)
      end
  end.

End UserHandler.

End handler.

(** ** internal/test and cmd/test: MockUserRepository *)

Module test.

(** [map[int32]*database.User] as a finite map from the id to the record the
    pointer leads to: every method hands out copies, so no pointer is shared
    with a caller.  The read/write lock makes each method atomic; calls are
    taken one after the other. *)
Record MockUserRepository := {
  users : gmap Z User.t;
  nextID : Z;
  shouldFail : bool
}.

Definition NewMockUserRepository : MockUserRepository :=
  {| users := ∅; nextID := 1; shouldFail := false |}.

Definition GetUser (id : Z) (m : MockUserRepository)
  : (User.t + error) * MockUserRepository :=
  if shouldFail m then (inr (errorsNew "mock database error"), m)
  else
    match users m !! id with
    | None => (inr (errorsNew "user not found"), m)
    | Some user => (inl user, m)
    end.

Definition CreateUser (arg : CreateUserParams.t) (m : MockUserRepository)
  : (User.t + error) * MockUserRepository :=
  if shouldFail m then (inr (errorsNew "mock database error"), m)
  else
    let user := {| User.ID := nextID m;
                   User.Name := CreateUserParams.Name arg;
                   User.Dob := CreateUserParams.Dob arg |} in
    (inl user,
     {| users := <[nextID m := user]> (users m);
        nextID := int32 (nextID m + 1);
        shouldFail := shouldFail m |}).

Definition UpdateUser (arg : UpdateUserParams.t) (m : MockUserRepository)
  : (User.t + error) * MockUserRepository :=
  if shouldFail m then (inr (errorsNew "mock database error"), m)
  else
    match users m !! UpdateUserParams.ID arg with
    | None => (inr (errorsNew "user not found"), m)
    | Some user =>
        let user := {| User.ID := User.ID user;
                       User.Name := UpdateUserParams.Name arg;
                       User.Dob := UpdateUserParams.Dob arg |} in
        (inl user,
         {| users := <[UpdateUserParams.ID arg := user]> (users m);
            nextID := nextID m;
            shouldFail := shouldFail m |})
    end.

Definition DeleteUser (id : Z) (m : MockUserRepository)
  : option error * MockUserRepository :=
  if shouldFail m then (Some (errorsNew "mock database error"), m)
  else
    match users m !! id with
    | None => (Some (errorsNew "user not found"), m)
    | Some _ =>
        (None,
         {| users := delete id (users m);
            nextID := nextID m;
            shouldFail := shouldFail m |})
    end.

Definition SetShouldFail (fail : bool) (m : MockUserRepository)
  : MockUserRepository :=
  {| users := users m; nextID := nextID m; shouldFail := fail |}.

Definition GetUserCount (m : MockUserRepository) : nat := size (users m).

#[global] Instance Mock_UserRepository
  : repository.UserRepository MockUserRepository := {
  repository.CreateUser := CreateUser;
  repository.GetUser := GetUser;
  repository.UpdateUser := UpdateUser;
  repository.DeleteUser := DeleteUser
}.

(** *** Runs of the repository *)

(** One use of the repository by a test: a call of the interface or a
    switch of the failure flag. *)
Inductive Op :=
| OpCall (c : repository.Call)
| OpSetShouldFail (fail : bool).

(** The ids handed out by [CreateUser] in a run, oldest first, with the
    store the run ends in. *)
Fixpoint run (ops : list Op) (m : MockUserRepository)
  : list Z * MockUserRepository :=
  match ops with
  | [] => ([], m)
  | OpSetShouldFail fail :: ops => run ops (SetShouldFail fail m)
  | OpCall (repository.CallCreateUser arg) :: ops =>
      match CreateUser arg m with
      | (inl user, m) => let '(ids, m) := run ops m in (User.ID user :: ids, m)
      | (inr _, m) => run ops m
      end
  | OpCall (repository.CallGetUser id) :: ops => run ops (snd (GetUser id m))
  | OpCall (repository.CallUpdateUser arg) :: ops =>
      run ops (snd (UpdateUser arg m))
  | OpCall (repository.CallDeleteUser id) :: ops =>
      run ops (snd (DeleteUser id m))
  end.

(** Every record is filed under its own id. *)
Definition filed_by_id (m : MockUserRepository) : Prop :=
  ∀ k user, users m !! k = Some user → User.ID user = k.

End test.

(** * Vocabulary of the specification *)

(** The anniversary of [dob] has not yet come in the year of [now]. *)
Definition birthday_pending (now dob : Time) : Prop :=
  Month now < Month dob ∨ (Month now = Month dob ∧ Day now < Day dob).

(** Order of calendar dates, the time of day left aside. *)
Definition date_lt (a b : Time) : Prop :=
  Year a < Year b
  ∨ (Year a = Year b
     ∧ (Month a < Month b ∨ (Month a = Month b ∧ Day a < Day b))).

Definition same_date (a b : Time) : Prop :=
  Year a = Year b ∧ Month a = Month b ∧ Day a = Day b.

Definition date_le (a b : Time) : Prop := date_lt a b ∨ same_date a b.

Definition date_ltb (a b : Time) : bool :=
  (Year a <? Year b)
  || ((Year a =? Year b)
      && ((Month a <? Month b) || ((Month a =? Month b) && (Day a <? Day b)))).

(** The same month and day one year earlier. *)
Definition year_before (t : Time) : Time :=
  Date (Year t - 1) (Month t) (Day t) (Nanosecond t).

Definition when (b : bool) (msg : string) : list string :=
  if b then [msg] else [].

(** The rule table as the specification words it: every violated rule of
    every field gives its message, fields in declaration order, rules in the
    order of the table; a date that does not parse violates the not-future
    rule too. *)
Definition spec_violations (now : Time) (name dob : string) : list string :=
  when (String.eqb name "") "name is required"
  ++ when (utf8.RuneCountInString name <? 1)%nat
       "name must be at least 1 characters"
  ++ when (255 <? utf8.RuneCountInString name)%nat
       "name must be at most 255 characters"
  ++ when (String.eqb dob "") "dateOfBirth is required"
  ++ when (negb (bool_decide (is_Some (Parse dob))))
       "dateOfBirth must be in YYYY-MM-DD format"
  ++ when (negb (from_option (λ d, date_ltb d now) false (Parse dob)))
       "dateOfBirth cannot be in the future".

Definition spec_ValidateStruct (now : Time) (name dob : string)
  : option error :=
  match spec_violations now name dob with
  | [] => None
  | msgs => Some (errorsNew (Join msgs "; "))
  end.

(** What the service reports: for each field the first rule it violates,
    under the Go name of the field. *)
Definition name_violation (name : string) : list string :=
  if String.eqb name "" then ["Name is required"]
  else if (255 <? utf8.RuneCountInString name)%nat
  then ["Name must be at most 255 characters"]
  else [].

Definition dob_violation (now : Time) (dob : string) : list string :=
  if String.eqb dob "" then ["DOB is required"]
  else
    match Parse dob with
    | None => ["DOB must be in YYYY-MM-DD format"]
    | Some d => if Before d now then [] else ["DOB cannot be in the future"]
    end.

Definition first_violations (now : Time) (name dob : string) : list string :=
  name_violation name ++ dob_violation now dob.

Definition report (msgs : list string) : option error :=
  match msgs with
  | [] => None
  | _ => Some (errorsNew (Join msgs "; "))
  end.

(** * The rest of the program *)

(** ** time: dates built from parts *)

Module timeext.

(** [norm(hi, lo, base)]: [lo] brought into [0, base), the carry into [hi]. *)
Definition norm (hi lo base : Z) : Z * Z := (hi + lo / base, lo mod base).

Definition nextMonth (year month : Z) : Z * Z :=
  if month =? 12 then (year + 1, 1) else (year, month + 1).

Definition prevMonth (year month : Z) : Z * Z :=
  if month =? 1 then (year - 1, 12) else (year, month - 1).

(** A day number outside its month moved into the month it falls in. *)
Fixpoint rollDay (fuel : nat) (year month day : Z) : Z * Z * Z :=
  match fuel with
  | O => (year, month, day)
  | S fuel =>
      if day <? 1 then
        let '(y, m) := prevMonth year month in
        rollDay fuel y m (day + daysIn m y)
      else if daysIn month year <? day then
        let '(y, m) := nextMonth year month in
        rollDay fuel y m (day - daysIn month year)
      else (year, month, day)
  end.

Definition nanosPerDay : Z := 86400000000000.

(** [time.Date(year, month, day, 0, 0, 0, nsec, time.UTC)], [nsec] counted
    from midnight: month, time of day and day are normalised in that order,
    so that October 32 is November 1. *)
Definition DateOf (year month day nsec : Z) : Time :=
  let '(year, m) := norm year (month - 1) 12 in
  let month := m + 1 in
  let '(day, nsec) := norm day nsec nanosPerDay in
  let '(y, m, d) := rollDay (S (Z.to_nat (Z.abs day))) year month day in
  Date y m d nsec.

(** [t.AddDate(years, months, days)]. *)
Definition AddDate (t : Time) (years months days : Z) : Time :=
  DateOf (Year t + years) (Month t + months) (Day t + days) (Nanosecond t).

Definition digitChar (d : Z) : ascii := ascii_of_nat (48 + Z.to_nat d).

(** The decimal digits of [u] put before [acc]; the buffer of [appendInt]
    holds 20 of them. *)
Fixpoint utoa (fuel : nat) (u : Z) (acc : string) : string :=
  match fuel with
  | O => acc
  | S fuel =>
      if u <? 10 then String (digitChar u) acc
      else utoa fuel (u / 10) (String (digitChar (u mod 10)) acc)
  end.

Fixpoint zeros (n : nat) (acc : string) : string :=
  match n with
  | O => acc
  | S n => String "0" (zeros n acc)
  end.

(** [appendInt(b, x, width)]: sign, zero padding to [width], digits. *)
Definition appendInt (x : Z) (width : nat) : string :=
  let digits := utoa 20 (Z.abs x) "" in
  (if x <? 0 then "-" else "")
  +:+ zeros (width - String.length digits) digits.

(** [t.Format("2006-01-02")]. *)
Definition Format (t : Time) : string :=
  appendInt (Year t) 4 +:+ "-" +:+ appendInt (Month t) 2
  +:+ "-" +:+ appendInt (Day t) 2.

(** A calendar date with a time of day, as [time.Now()] gives. *)
Definition valid (t : Time) : Prop :=
  1 <= Month t <= 12
  ∧ 1 <= Day t <= daysIn (Month t) (Year t)
  ∧ 0 <= Nanosecond t < nanosPerDay.

End timeext.

(** ** ListUsers through the layers *)

Module listing.

Import test.


(** [MockUserRepository.ListUsers], the map visited in the order
    [entries]. *)
Definition MockListUsers (entries : list (Z * User.t)) (m : MockUserRepository)
  : (list User.t + error) * MockUserRepository :=
  if shouldFail m then (inr (errorsNew "mock database error"), m)
  else (inl (map snd entries), m).

(** [UserService.ListUsers] over the [ListUsers] of its repository. *)
Definition ListUsers {R : Type} (repoListUsers : R → (list User.t + error) * R)
  (now : Time) (r : R) : (list UserResponse.t + error) * R :=
  match repoListUsers r with
  | (inr err, r) => (inr err, r)
  | (inl dbUsers, r) => (inl (map (service.response now) dbUsers), r)
  end.


End listing.

(** ** Stores before the counter wraps *)

(** Every id in use is positive and below the counter. *)
Definition keys_below (m : test.MockUserRepository) : Prop :=
  ∀ k user, test.users m !! k = Some user → 1 <= k < test.nextID m.

(** A handler answered with a success status. *)
Definition succeeded (resp : handler.Response) : bool :=
  (handler.Status resp =? 200) || (handler.Status resp =? 204).

(** ** cmd/test: the age tests *)

Module agetests.

Import timeext.

Record AgeCalculationTest := { Name : string; DOB : Time; Expected : Z }.

(** The table of [RunAgeCalculationTests]; every [time.Now()] of the run
    reads [now]. *)
Definition tests (now : Time) : list AgeCalculationTest :=
  [ {| Name := "Person born today (age 0)";
       DOB := now;
       Expected := 0 |};
    {| Name := "Person born 1 year ago";
       DOB := AddDate now (-1) 0 0;
       Expected := 1 |};
    {| Name := "Person born 30 years ago";
       DOB := AddDate now (-30) 0 0;
       Expected := 30 |};
    {| Name := "Person born before birthday this year";
       DOB := DateOf (Year now - 25) (Month now + 1) (Day now) 0;
       Expected := 24 |};
    {| Name := "Person born after birthday this year";
       DOB := DateOf (Year now - 25) (Month now - 1) (Day now) 0;
       Expected := 25 |};
    {| Name := "Person born in leap year";
       DOB := DateOf 1996 2 29 0;
       Expected := Year now - 1996 |};
    {| Name := "Classic DOB: 1990-05-15";
       DOB := DateOf 1990 5 15 0;
       Expected := Year now - 1990 |} ].

(** The test of the loop body: [age == test.Expected]. *)
Definition passes (now : Time) (test : AgeCalculationTest) : bool :=
  cmd_test.calculateAge now (DOB test) =? Expected test.

(** [RunAgeCalculationTests]: the counts [passed] and [failed] it prints. *)
Definition RunAgeCalculationTests (now : Time) : Z * Z :=
  fold_left
    (λ '(passed, failed) test,
       if passes now test then (passed + 1, failed) else (passed, failed + 1))
    (tests now) (0, 0).

End agetests.

(** ** internal/test and cmd/test: SystemTestRunner *)

Module runner.

Import test.

Inductive data :=
| NoData
| UserData (u : UserResponse.t)
| UsersData (us : list UserResponse.t).

Record TestResult := {
  Success : bool;
  Message : string;
  Data : data;
  Error : option error
}.

Section SystemTestRunner.

(** The error [time.Parse] returns for a text it rejects. *)
Variable parseError : string → error.

Definition RunCreateUserTest (nowV now : Time) (name dob : string)
  (r : MockUserRepository) : TestResult * MockUserRepository :=
  let req := {| CreateUserRequest.Name := name; CreateUserRequest.DOB := dob |} in
  match validator.ValidateStruct (CreateUserRequest.fields nowV req) with
  | Some err =>
      ({| Success := false; Message := "Validation failed";
          Data := NoData; Error := Some err |}, r)
  | None =>
      match Parse dob with
      | None =>
          ({| Success := false; Message := "Date parsing failed";
              Data := NoData; Error := Some (parseError dob) |}, r)
      | Some parsedDOB =>
          match service.CreateUser now name parsedDOB r with
          | (inr err, r) =>
              ({| Success := false; Message := "Service call failed";
                  Data := NoData; Error := Some err |}, r)
          | (inl user, r) =>
              ({| Success := true; Message := "User created successfully";
                  Data := UserData user; Error := None |}, r)
          end
      end
  end.

Definition RunGetUserTest (now : Time) (id : Z) (r : MockUserRepository)
  : TestResult * MockUserRepository :=
  match service.GetUser now id r with
  | (inr err, r) =>
      ({| Success := false; Message := "Failed to get user";
          Data := NoData; Error := Some err |}, r)
  | (inl user, r) =>
      ({| Success := true; Message := "User retrieved successfully";
          Data := UserData user; Error := None |}, r)
  end.

Definition RunUpdateUserTest (nowV now : Time) (id : Z) (name dob : string)
  (r : MockUserRepository) : TestResult * MockUserRepository :=
  let req := {| UpdateUserRequest.Name := name; UpdateUserRequest.DOB := dob |} in
  match validator.ValidateStruct (UpdateUserRequest.fields nowV req) with
  | Some err =>
      ({| Success := false; Message := "Validation failed";
          Data := NoData; Error := Some err |}, r)
  | None =>
      match Parse dob with
      | None =>
          ({| Success := false; Message := "Date parsing failed";
              Data := NoData; Error := Some (parseError dob) |}, r)
      | Some parsedDOB =>
          match service.UpdateUser now id name parsedDOB r with
          | (inr err, r) =>
              ({| Success := false; Message := "Failed to update user";
                  Data := NoData; Error := Some err |}, r)
          | (inl user, r) =>
              ({| Success := true; Message := "User updated successfully";
                  Data := UserData user; Error := None |}, r)
          end
      end
  end.

Definition RunDeleteUserTest (id : Z) (r : MockUserRepository)
  : TestResult * MockUserRepository :=
  match service.DeleteUser id r with
  | (Some err, r) =>
      ({| Success := false; Message := "Failed to delete user";
          Data := NoData; Error := Some err |}, r)
  | (None, r) =>
      ({| Success := true; Message := "User deleted successfully";
          Data := NoData; Error := None |}, r)
  end.

(** [entries] is the order in which the repository visits its map. *)
Definition RunListUsersTest (entries : list (Z * User.t)) (now : Time)
  (r : MockUserRepository) : TestResult * MockUserRepository :=
  match listing.ListUsers (listing.MockListUsers entries) now r with
  | (inr err, r) =>
      ({| Success := false; Message := "Failed to list users";
          Data := NoData; Error := Some err |}, r)
  | (inl users, r) =>
      ({| Success := true; Message := "Users listed successfully";
          Data := UsersData users; Error := None |}, r)
  end.

Definition RunValidationErrorTest (nowV : Time) (name dob : string)
  : TestResult :=
  let req := {| CreateUserRequest.Name := name; CreateUserRequest.DOB := dob |} in
  match validator.ValidateStruct (CreateUserRequest.fields nowV req) with
  | None =>
      {| Success := false;
         Message := "Validation should have failed but didn't";
         Data := NoData; Error := None |}
  | Some err =>
      {| Success := true;
         Message := "Validation correctly rejected invalid input";
         Data := NoData; Error := Some err |}
  end.

(** The deferred [SetShouldFail(false)] runs on every way out. *)
Definition RunDatabaseErrorTest (now : Time) (r : MockUserRepository)
  : TestResult * MockUserRepository :=
  let r := SetShouldFail true r in
  match service.CreateUser now "Test User" (timeext.AddDate now (-30) 0 0) r with
  | (inl _, r) =>
      ({| Success := false;
          Message := "Database error should have been returned";
          Data := NoData; Error := None |}, SetShouldFail false r)
  | (inr err, r) =>
      ({| Success := true; Message := "Database error handled correctly";
          Data := NoData; Error := Some err |}, SetShouldFail false r)
  end.

End SystemTestRunner.

End runner.

(** ** cmd/test: the program *)

Module systemtests.

Import test runner.

(** [repeatChar(char, count)]. *)
Definition repeatChar (char : string) (count : Z) : string :=
  Nat.iter (Z.to_nat count) (λ result, result +:+ char) "".

(** [testsPassed++] or [testsFailed++]. *)
Definition tally (passed : bool) (counts : Z * Z) : Z * Z :=
  if passed then (fst counts + 1, snd counts) else (fst counts, snd counts + 1).

(** The system tests of [main]: the counts [testsPassed] and [testsFailed]
    of its summary.  Every reading of the clock gives [now]; [entries] is
    the order in which test 4 visits the map. *)
Definition main (parseError : string → error) (now : Time)
  (entries : list (Z * User.t)) : Z * Z :=
  let runner := NewMockUserRepository in
  let counts := (0, 0) in
  (* TEST 1: Create User (Valid Request) *)
  let '(result, runner) :=
    RunCreateUserTest parseError now now "John Doe" "1990-05-15" runner in
  let counts := tally (Success result) counts in
  (* TEST 2: Get User by ID *)
  let '(result, runner) := RunGetUserTest now 1 runner in
  let counts := tally (Success result) counts in
  (* TEST 3: Create Another User *)
  let '(result, runner) :=
    RunCreateUserTest parseError now now "Jane Smith" "1992-08-22" runner in
  let counts := tally (Success result) counts in
  (* TEST 4: List All Users *)
  let '(result, runner) := RunListUsersTest entries now runner in
  let counts := tally (Success result) counts in
  (* TEST 5: Update User *)
  let '(result, runner) :=
    RunUpdateUserTest parseError now now 1 "John Doe Updated" "1990-05-20"
      runner in
  let counts := tally (Success result) counts in
  (* TEST 6: Delete User *)
  let '(result, runner) := RunDeleteUserTest 2 runner in
  let counts := tally (Success result) counts in
  (* TEST 7: Get Non-Existent User *)
  let '(result, runner) := RunGetUserTest now 999 runner in
  let counts := tally (negb (Success result)) counts in
  (* TEST 8: Validation - Empty Name *)
  let result := RunValidationErrorTest now "" "1990-05-15" in
  let counts := tally (Success result) counts in
  (* TEST 9: Validation - Invalid Date Format *)
  let result := RunValidationErrorTest now "John Doe" "05-15-1990" in
  let counts := tally (Success result) counts in
  (* TEST 10: Validation - Future Date *)
  let futureDate := timeext.Format (timeext.AddDate now 1 0 0) in
  let result := RunValidationErrorTest now "John Doe" futureDate in
  let counts := tally (Success result) counts in
  (* TEST 11: Validation - Name Too Long *)
  let longName := Nat.iter 255 (λ longName, longName +:+ "a") "a" in
  let result := RunValidationErrorTest now longName "1990-05-15" in
  let counts := tally (Success result) counts in
  (* TEST 12: Database Error Handling *)
  let '(result, runner) := RunDatabaseErrorTest now runner in
  let counts := tally (Success result) counts in
  (* TEST 13: Full Workflow *)
  let '(result, runner) :=
    RunCreateUserTest parseError now now "Bob Johnson" "1985-03-10" runner in
  let '(counts, runner) :=
    if Success result then
      let '(result, runner) :=
        RunUpdateUserTest parseError now now 3 "Bob Johnson Updated"
          "1985-04-10" runner in
      if Success result then
        let '(result, runner) := RunGetUserTest now 3 runner in
        (tally (Success result) counts, runner)
      else (tally false counts, runner)
    else (tally false counts, runner) in
  (* TEST 14: Verify Repository State *)
  let count := GetUserCount runner in
  tally (Nat.eqb count 2) counts.

End systemtests.

(** * Properties *)

(** ** Validation *)

Section Validation.

Import playground validator.

Lemma RuneCountInString_pos c s : (1 <= utf8.RuneCountInString (String c s))%nat.
Proof. unfold utf8.RuneCountInString. simpl. lia. Qed.

Lemma name_errors name :
  map getErrorMessage
    (traverseField "Name" name [required; min "1"; max "255"])
  = name_violation name.
Proof.
  unfold name_violation.
  destruct name as [|c s]; [reflexivity|].
  change (String.eqb (String c s) "") with false.
  cbn [traverseField required min max rule ctFn ctParam ctTag hasValue flField].
  change (String.eqb (String c s) "") with false. cbn [negb].
  unfold hasMinOf, hasMaxOf. cbn [flField flParam].
  change (asInt "1") with 1. change (asInt "255") with 255.
  pose proof (RuneCountInString_pos c s) as Hpos.
  destruct (Z.leb_spec 1 (Z.of_nat (utf8.RuneCountInString (String c s)))); [|lia].
  destruct (Z.leb_spec (Z.of_nat (utf8.RuneCountInString (String c s))) 255);
    destruct (Nat.ltb_spec 255 (utf8.RuneCountInString (String c s)));
    try lia; reflexivity.
Qed.

Lemma dob_errors now dob :
  map getErrorMessage
    (traverseField "DOB" dob [required; dateformat; notfuture now])
  = dob_violation now dob.
Proof.
  unfold dob_violation.
  destruct dob as [|c s]; [reflexivity|].
  change (String.eqb (String c s) "") with false.
  cbn [traverseField required dateformat notfuture rule ctFn ctParam ctTag
       hasValue flField negb].
  change (String.eqb (String c s) "") with false. cbn [negb].
  unfold validateDateFormat, validateNotFuture. cbn [flField].
  destruct (Parse (String c s)) as [d|]; [|reflexivity].
  destruct (Before d now); reflexivity.
Qed.

Lemma ValidateStruct_fields now name dob :
  ValidateStruct
    [ {| cfName := "Name"; cfTags := [required; min "1"; max "255"];
         cfValue := name |};
      {| cfName := "DOB"; cfTags := [required; dateformat; notfuture now];
         cfValue := dob |} ]
  = report (first_violations now name dob).
Proof.
  unfold ValidateStruct, Struct, formatValidationErrors, first_violations.
  cbn [flat_map cfName cfTags cfValue]. rewrite app_nil_r.
  rewrite <- name_errors, <- (dob_errors now dob), <- map_app.
  destruct (_ ++ _); reflexivity.
Qed.

Lemma ValidateStruct_create now req :
  ValidateStruct (CreateUserRequest.fields now req)
  = report (first_violations now (CreateUserRequest.Name req)
              (CreateUserRequest.DOB req)).
Proof. apply ValidateStruct_fields. Qed.

Lemma ValidateStruct_update now req :
  ValidateStruct (UpdateUserRequest.fields now req)
  = report (first_violations now (UpdateUserRequest.Name req)
              (UpdateUserRequest.DOB req)).
Proof. apply ValidateStruct_fields. Qed.

End Validation.

(** ** The parser and the validator on the inputs of the test suite *)

Example Parse_ok : Parse "1990-01-15" = Some (Date 1990 1 15 0).
Proof. reflexivity. Qed.

Example Parse_us_order : Parse "01-15-1990" = None.
Proof. reflexivity. Qed.

Example Parse_leap_day : Parse "1996-02-29" = Some (Date 1996 2 29 0).
Proof. reflexivity. Qed.

Example Parse_no_leap_day : Parse "1997-02-29" = None.
Proof. reflexivity. Qed.

Example Parse_extra_text : Parse "1990-01-15T00:00:00Z" = None.
Proof. reflexivity. Qed.

Example validate_empty_name :
  validator.ValidateStruct
    (CreateUserRequest.fields (Date 2026 10 30 0)
       {| CreateUserRequest.Name := ""; CreateUserRequest.DOB := "1990-01-15" |})
  = Some (errorsNew "Name is required").
Proof. reflexivity. Qed.

(** ** Age calculation *)

Lemma birthday_pending_test now dob :
  birthday_pending now dob ↔
  (Month now <? Month dob)
  || ((Month now =? Month dob) && (Day now <? Day dob)) = true.
Proof. unfold birthday_pending. lia. Qed.

Lemma calculateAge_copy now dob :
  cmd_test.calculateAge now dob = service.calculateAge now dob.
Proof. reflexivity. Qed.

(** C1: the age is the difference of the years, less one exactly when the
    month and day of [now] come before those of the date of birth; the age
    of a person born today is 0, and so is the age for every birth date
    within the last twelve months.  The copy of the function in the test
    program computes the same. *)
Theorem calculateAge_spec (now dob : Time) :
  (birthday_pending now dob →
     service.calculateAge now dob = Year now - Year dob - 1)
  ∧ (¬ birthday_pending now dob →
     service.calculateAge now dob = Year now - Year dob)
  ∧ service.calculateAge now now = 0
  ∧ (date_le dob now → date_lt (year_before now) dob →
     service.calculateAge now dob = 0)
  ∧ cmd_test.calculateAge now dob = service.calculateAge now dob.
Proof.
  unfold cmd_test.calculateAge, service.calculateAge.
  repeat split.
  - intros H%birthday_pending_test. rewrite H. reflexivity.
  - intros H. rewrite birthday_pending_test in H.
    apply not_true_is_false in H. rewrite H. reflexivity.
  - replace (Month now <? Month now) with false by lia.
    replace (Day now <? Day now) with false by lia.
    rewrite andb_false_r. simpl. lia.
  - unfold date_le, same_date, date_lt, year_before. simpl. intros Hle Hlt.
    destruct ((Month now <? Month dob)
              || ((Month now =? Month dob) && (Day now <? Day dob))) eqn:E; lia.
Qed.

Lemma calculateAge_spec_witness :
  service.calculateAge (Date 2026 10 30 0) (Date 1990 11 2 0) = 35
  ∧ service.calculateAge (Date 2026 10 30 0) (Date 1990 5 15 0) = 36
  ∧ service.calculateAge (Date 2026 10 30 0) (Date 2025 10 31 0) = 0.
Proof.
  split; [| split].
  - apply (proj1 (calculateAge_spec (Date 2026 10 30 0) (Date 1990 11 2 0))).
    unfold birthday_pending; simpl; lia.
  - apply (proj1 (proj2
      (calculateAge_spec (Date 2026 10 30 0) (Date 1990 5 15 0)))).
    unfold birthday_pending; simpl; lia.
  - apply (proj1 (proj2 (proj2 (proj2
      (calculateAge_spec (Date 2026 10 30 0) (Date 2025 10 31 0)))))).
    + unfold date_le, date_lt; simpl; lia.
    + unfold date_lt, year_before; simpl; lia.
Defined.

(** C10: no guard against future dates: a date of birth in a later year than
    the current one gives a strictly negative age. *)
Theorem calculateAge_future_negative (now dob : Time) :
  Year now < Year dob → service.calculateAge now dob < 0.
Proof.
  intros H. unfold service.calculateAge.
  destruct ((Month now <? Month dob)
            || ((Month now =? Month dob) && (Day now <? Day dob))); lia.
Qed.

Lemma calculateAge_future_negative_witness :
  service.calculateAge (Date 2026 10 30 0) (Date 2099 1 15 0) < 0.
Proof.
  apply (calculateAge_future_negative (Date 2026 10 30 0) (Date 2099 1 15 0)).
  simpl. lia.
Defined.

(** ** The not-future rule *)

Lemma Parse_midnight s d : Parse s = Some d → Nanosecond d = 0.
Proof.
  unfold Parse. intros H.
  destruct (getyear s) as [[year s1]|]; [|discriminate]. simpl in H.
  destruct (skip s1) as [s2|]; [|discriminate]. simpl in H.
  destruct (getnum s2) as [[month s3]|]; [|discriminate]. simpl in H.
  destruct (skip s3) as [s4|]; [|discriminate]. simpl in H.
  destruct (getnum s4) as [[day s5]|]; [|discriminate]. simpl in H.
  destruct s5; [|discriminate].
  destruct (_ || _); [discriminate|].
  destruct (_ || _); [discriminate|].
  injection H as <-. reflexivity.
Qed.

Lemma Parse_nonempty s d : Parse s = Some d → String.eqb s "" = false.
Proof. destruct s; [discriminate | reflexivity]. Qed.

Lemma Before_date_le d now : Before d now = true → date_le d now.
Proof. unfold Before, date_le, date_lt, same_date. lia. Qed.

Lemma date_lt_not_Before d now : date_lt now d → Before d now = false.
Proof. unfold Before, date_lt. lia. Qed.

Lemma Contains_future_message name :
  Contains (Join (name_violation name ++ ["DOB cannot be in the future"]) "; ")
    "DOB cannot be in the future" = true.
Proof.
  unfold name_violation.
  destruct (String.eqb name ""); [reflexivity|].
  destruct (255 <? _)%nat; reflexivity.
Qed.

Lemma dob_violation_future now dob d :
  Parse dob = Some d → Before d now = false →
  dob_violation now dob = ["DOB cannot be in the future"].
Proof.
  intros HP HB. unfold dob_violation.
  rewrite (Parse_nonempty _ _ HP), HP, HB. reflexivity.
Qed.

Lemma report_None msgs : report msgs = None → msgs = [].
Proof. destruct msgs; [reflexivity | discriminate]. Qed.

Lemma report_snoc msgs msg :
  report (msgs ++ [msg]) = Some (errorsNew (Join (msgs ++ [msg]) "; ")).
Proof. destruct msgs; reflexivity. Qed.

Lemma accepted_dob now name dob :
  report (first_violations now name dob) = None →
  name_violation name = []
  ∧ ∃ d, Parse dob = Some d ∧ Before d now = true.
Proof.
  intros H%report_None. unfold first_violations in H.
  apply app_eq_nil in H as [Hn Hd]. split; [exact Hn|].
  unfold dob_violation in Hd.
  destruct (String.eqb dob ""); [discriminate|].
  destruct (Parse dob) as [d|]; [|discriminate].
  exists d. destruct (Before d now); [split; reflexivity | discriminate].
Qed.

(** C2, as the service has it: a date of birth that parses and lies after
    the current date fails the validation of a create and of an update
    request, and the error holds the message of the not-future rule; a date
    of birth that is accepted parses and is not after the current date: its
    midnight is strictly earlier than the current instant. *)
Theorem notfuture_validation (now : Time) (name dob : string) :
  (∀ d, Parse dob = Some d → date_lt now d →
   ∃ msg,
     validator.ValidateStruct
       (CreateUserRequest.fields now
          {| CreateUserRequest.Name := name; CreateUserRequest.DOB := dob |})
     = Some (errorsNew msg)
     ∧ validator.ValidateStruct
         (UpdateUserRequest.fields now
            {| UpdateUserRequest.Name := name; UpdateUserRequest.DOB := dob |})
       = Some (errorsNew msg)
     ∧ msg = Join (name_violation name ++ ["DOB cannot be in the future"]) "; "
     ∧ Contains msg "DOB cannot be in the future" = true)
  ∧ (validator.ValidateStruct
       (CreateUserRequest.fields now
          {| CreateUserRequest.Name := name; CreateUserRequest.DOB := dob |})
     = None
     ∨ validator.ValidateStruct
         (UpdateUserRequest.fields now
            {| UpdateUserRequest.Name := name; UpdateUserRequest.DOB := dob |})
       = None →
     ∃ d, Parse dob = Some d ∧ Before d now = true ∧ date_le d now).
Proof.
  rewrite ValidateStruct_create, ValidateStruct_update.
  cbn [CreateUserRequest.Name CreateUserRequest.DOB
       UpdateUserRequest.Name UpdateUserRequest.DOB].
  split.
  - intros d HP Hlt%date_lt_not_Before.
    unfold first_violations. rewrite (dob_violation_future _ _ _ HP Hlt).
    eexists. rewrite report_snoc.
    repeat split. apply Contains_future_message.
  - intros H. assert (report (first_violations now name dob) = None) as H'
      by (destruct H; assumption).
    apply accepted_dob in H' as [_ (d & HP & HB)].
    exists d. repeat split; [exact HP | exact HB | apply Before_date_le, HB].
Qed.

Lemma notfuture_validation_witness :
  ∃ msg,
    validator.ValidateStruct
      (CreateUserRequest.fields (Date 2026 10 30 43200000000000)
         {| CreateUserRequest.Name := "X";
            CreateUserRequest.DOB := "2099-01-15" |})
    = Some (errorsNew msg)
    ∧ validator.ValidateStruct
        (UpdateUserRequest.fields (Date 2026 10 30 43200000000000)
           {| UpdateUserRequest.Name := "X";
              UpdateUserRequest.DOB := "2099-01-15" |})
      = Some (errorsNew msg)
    ∧ msg = Join (name_violation "X" ++ ["DOB cannot be in the future"]) "; "
    ∧ Contains msg "DOB cannot be in the future" = true.
Proof.
  apply (proj1 (notfuture_validation (Date 2026 10 30 43200000000000)
                  "X" "2099-01-15") (Date 2099 1 15 0) eq_refl).
  unfold date_lt; simpl; lia.
Defined.

(** C2 as the specification words it fails: at noon of 2026-10-30 a date of
    birth of 2026-10-30, equal to the current date, passes the validation. *)
Lemma today_is_accepted :
  let now := Date 2026 10 30 43200000000000 in
  let req := {| CreateUserRequest.Name := "X";
                CreateUserRequest.DOB := "2026-10-30" |} in
  ∃ d, Parse (CreateUserRequest.DOB req) = Some d
       ∧ same_date d now
       ∧ ¬ date_lt d now
       ∧ validator.ValidateStruct (CreateUserRequest.fields now req) = None
       ∧ spec_ValidateStruct now (CreateUserRequest.Name req)
           (CreateUserRequest.DOB req)
         = Some (errorsNew "dateOfBirth cannot be in the future").
Proof.
  exists (Date 2026 10 30 0).
  split; [reflexivity|]. split; [repeat split|].
  split; [unfold date_lt; simpl; lia|].
  split; reflexivity.
Qed.

(** No message of the validator holds a formatting verb, which is what lets
    [fmt.Errorf] be read as [errors.New] in [ValidateStruct]. *)
Lemma report_no_verb now name dob msg :
  report (first_violations now name dob) = Some (errorsNew msg) →
  Contains msg "%" = false.
Proof.
  unfold first_violations, name_violation, dob_violation.
  destruct (String.eqb name "");
    [|destruct (255 <? utf8.RuneCountInString name)%nat];
    (destruct (String.eqb dob "");
     [|destruct (Parse dob) as [d|]; [destruct (Before d now)|]]);
    cbn [app report]; intros [= <-]; reflexivity.
Qed.

(** ** Dates that do not parse *)

Lemma dob_violation_unparsed now dob :
  Parse dob = None →
  dob_violation now dob
  = [if String.eqb dob "" then "DOB is required"
     else "DOB must be in YYYY-MM-DD format"].
Proof.
  intros HP. unfold dob_violation. rewrite HP.
  destruct (String.eqb dob ""); reflexivity.
Qed.

Lemma Contains_no_future_message name (empty : bool) :
  Contains
    (Join (name_violation name
           ++ [if empty then "DOB is required"
               else "DOB must be in YYYY-MM-DD format"]) "; ")
    "cannot be in the future" = false.
Proof.
  unfold name_violation.
  destruct (String.eqb name ""); [destruct empty; reflexivity|].
  destruct (255 <? _)%nat; destruct empty; reflexivity.
Qed.

(** C3, as the service has it: on a date of birth that does not parse, the
    format rule and the not-future rule both evaluate to false (the
    not-future rule fails closed), and validation of a create and of an
    update request fails; the error reports the first rule the field
    violates only, "DOB is required" for the empty string and the format
    message otherwise, and never holds the message of the not-future rule. *)
Theorem unparsed_dob_validation (now : Time) (name dob : string) :
  Parse dob = None →
  validator.validateDateFormat
    {| playground.flField := dob; playground.flParam := "" |} = false
  ∧ validator.validateNotFuture now
      {| playground.flField := dob; playground.flParam := "" |} = false
  ∧ ∃ msg,
      validator.ValidateStruct
        (CreateUserRequest.fields now
           {| CreateUserRequest.Name := name; CreateUserRequest.DOB := dob |})
      = Some (errorsNew msg)
      ∧ validator.ValidateStruct
          (UpdateUserRequest.fields now
             {| UpdateUserRequest.Name := name; UpdateUserRequest.DOB := dob |})
        = Some (errorsNew msg)
      ∧ msg = Join (name_violation name
                    ++ [if String.eqb dob "" then "DOB is required"
                        else "DOB must be in YYYY-MM-DD format"]) "; "
      ∧ Contains msg "cannot be in the future" = false.
Proof.
  intros HP.
  unfold validator.validateDateFormat, validator.validateNotFuture.
  cbn [playground.flField]. rewrite HP.
  split; [reflexivity|]. split; [reflexivity|].
  rewrite ValidateStruct_create, ValidateStruct_update.
  cbn [CreateUserRequest.Name CreateUserRequest.DOB
       UpdateUserRequest.Name UpdateUserRequest.DOB].
  unfold first_violations. rewrite (dob_violation_unparsed _ _ HP).
  eexists. rewrite report_snoc.
  repeat split. apply Contains_no_future_message.
Qed.

Lemma unparsed_dob_validation_witness :
  validator.ValidateStruct
    (CreateUserRequest.fields (Date 2026 10 30 43200000000000)
       {| CreateUserRequest.Name := "";
          CreateUserRequest.DOB := "05-15-1990" |})
  = Some (errorsNew "Name is required; DOB must be in YYYY-MM-DD format").
Proof.
  destruct (proj2 (proj2
    (unparsed_dob_validation (Date 2026 10 30 43200000000000)
       "" "05-15-1990" eq_refl))) as (msg & -> & _ & -> & _).
  reflexivity.
Defined.

(** C3 as the specification words it fails: for "01-15-1990", which does not
    parse, the error holds the format message and not the message of the
    not-future rule. *)
Lemma unparsed_dob_one_message :
  let now := Date 2026 10 30 43200000000000 in
  let req := {| CreateUserRequest.Name := "Jane Doe";
                CreateUserRequest.DOB := "01-15-1990" |} in
  Parse (CreateUserRequest.DOB req) = None
  ∧ validator.ValidateStruct (CreateUserRequest.fields now req)
    = Some (errorsNew "DOB must be in YYYY-MM-DD format")
  ∧ Contains "DOB must be in YYYY-MM-DD format" "cannot be in the future"
    = false.
Proof. repeat split. Qed.

(** ** The error string *)

(** C4, as the service has it: the error string of a create and of an update
    request joins with "; " one message for each field that violates a
    rule, the name first and the date of birth second; the message is that
    of the first rule the field violates, in the order of its tag, and
    names the field as the Go struct does: "Name is required", "Name must
    be at most 255 characters", "DOB is required", "DOB must be in
    YYYY-MM-DD format", "DOB cannot be in the future".  A request that
    violates no rule gives no error. *)
Theorem ValidateStruct_first_violations (now : Time) (name dob : string) :
  validator.ValidateStruct
    (CreateUserRequest.fields now
       {| CreateUserRequest.Name := name; CreateUserRequest.DOB := dob |})
  = report (first_violations now name dob)
  ∧ validator.ValidateStruct
      (UpdateUserRequest.fields now
         {| UpdateUserRequest.Name := name; UpdateUserRequest.DOB := dob |})
    = report (first_violations now name dob).
Proof.
  split; [apply ValidateStruct_create | apply ValidateStruct_update].
Qed.

(** C4 as the specification words it fails: for an empty name and the date
    "abc" the rule table lists four violations under the names "name" and
    "dateOfBirth"; the service reports two, under "Name" and "DOB". *)
Lemma violations_not_all_collected :
  let now := Date 2026 10 30 43200000000000 in
  let req := {| CreateUserRequest.Name := ""; CreateUserRequest.DOB := "abc" |} in
  spec_ValidateStruct now (CreateUserRequest.Name req) (CreateUserRequest.DOB req)
  = Some (errorsNew
      "name is required; name must be at least 1 characters; dateOfBirth must be in YYYY-MM-DD format; dateOfBirth cannot be in the future")
  ∧ validator.ValidateStruct (CreateUserRequest.fields now req)
    = Some (errorsNew "Name is required; DOB must be in YYYY-MM-DD format")
  ∧ validator.ValidateStruct (CreateUserRequest.fields now req)
    ≠ spec_ValidateStruct now (CreateUserRequest.Name req)
        (CreateUserRequest.DOB req).
Proof. repeat split. discriminate. Qed.

(** ** Validation comes before persistence *)

Section FailFast.

Context {R : Type} `{repository.UserRepository R}.

(** C5: a create or update request that fails validation is answered with
    the validation error and the store is handed back as it was, for every
    implementation of the repository: no method of it is called.  For a
    repository that records its calls the record is therefore unchanged. *)
Theorem validation_before_persistence
  (nowV now : Time) (id : Z) (create : CreateUserRequest.t)
  (update : UpdateUserRequest.t) (r : R) :
  (∀ err,
     validator.ValidateStruct (CreateUserRequest.fields nowV create) = Some err →
     handler.CreateUser nowV now (Some create) r
     = (handler.fail handler.StatusBadRequest (Error err), r))
  ∧ (∀ err,
     validator.ValidateStruct (UpdateUserRequest.fields nowV update) = Some err →
     handler.UpdateUser nowV now (Some id) (Some update) r
     = (handler.fail handler.StatusBadRequest (Error err), r)).
Proof.
  split; intros err Herr.
  - unfold handler.CreateUser. rewrite Herr. reflexivity.
  - unfold handler.UpdateUser. rewrite Herr. reflexivity.
Qed.

End FailFast.

Lemma validation_before_persistence_witness :
  let t := {| repository.inner := test.NewMockUserRepository;
              repository.calls := [] |} in
  handler.CreateUser (Date 2026 10 30 0) (Date 2026 10 30 1)
    (Some {| CreateUserRequest.Name := "";
             CreateUserRequest.DOB := "1990-05-15" |}) t
  = (handler.fail 400 "Name is required", t).
Proof.
  exact (proj1 (validation_before_persistence
                  (Date 2026 10 30 0) (Date 2026 10 30 1) 1
                  {| CreateUserRequest.Name := "";
                     CreateUserRequest.DOB := "1990-05-15" |}
                  {| UpdateUserRequest.Name := "";
                     UpdateUserRequest.DOB := "1990-05-15" |}
                  {| repository.inner := test.NewMockUserRepository;
                     repository.calls := [] |})
           (errorsNew "Name is required") eq_refl).
Defined.

(** ** The in-memory repository *)

Lemma int32_id z : is_int32 z → int32 z = z.
Proof.
  unfold is_int32, int32. intros Hz.
  rewrite Z.mod_small; lia.
Qed.

Lemma int32_range z : is_int32 (int32 z).
Proof.
  unfold is_int32, int32.
  pose proof (Z.mod_pos_bound (z + 2 ^ 31) (2 ^ 32) ltac:(lia)). lia.
Qed.

Lemma int32_add_l a b : int32 (int32 a + b) = int32 (a + b).
Proof.
  unfold int32. f_equal.
  replace (((a + 2 ^ 31) mod 2 ^ 32 - 2 ^ 31) + b + 2 ^ 31)
    with ((a + 2 ^ 31) mod 2 ^ 32 + b) by lia.
  replace (a + b + 2 ^ 31) with ((a + 2 ^ 31) + b) by lia.
  apply Zplus_mod_idemp_l.
Qed.

(** ** Status codes on a missing id *)

(** C6, where the handlers part from it: on a store that does not hold the
    id and is not set to fail, [GetUser] answers 404 "user not found", while
    [UpdateUser] with a valid body and [DeleteUser] answer 500; and on a
    store set to fail, [GetUser] answers 404 as well. *)
Theorem missing_id_status
  (nowV now : Time) (id : Z) (req : UpdateUserRequest.t)
  (m : test.MockUserRepository) :
  test.users m !! int32 id = None →
  validator.ValidateStruct (UpdateUserRequest.fields nowV req) = None →
  (test.shouldFail m = false →
   handler.GetUser now (Some id) m
   = (handler.fail 404 "user not found", m)
   ∧ handler.UpdateUser nowV now (Some id) (Some req) m
     = (handler.fail 500 "failed to update user", m)
   ∧ handler.DeleteUser (Some id) m
     = (handler.fail 500 "failed to delete user", m))
  ∧ (test.shouldFail m = true →
     handler.GetUser now (Some id) m
     = (handler.fail 404 "user not found", m)).
Proof.
  intros Hid Hvalid. split; intros Hfail.
  - split; [|split].
    + unfold handler.GetUser, service.GetUser. cbn [repository.GetUser
        test.Mock_UserRepository]. unfold test.GetUser.
      rewrite Hfail, Hid. reflexivity.
    + unfold handler.UpdateUser. rewrite Hvalid.
      rewrite ValidateStruct_update in Hvalid.
      apply accepted_dob in Hvalid as [_ (d & -> & _)].
      unfold service.UpdateUser. cbn [repository.UpdateUser
        test.Mock_UserRepository]. unfold test.UpdateUser.
      cbn [UpdateUserParams.ID]. rewrite Hfail, Hid. reflexivity.
    + unfold handler.DeleteUser, service.DeleteUser. cbn [repository.DeleteUser
        test.Mock_UserRepository]. unfold test.DeleteUser.
      rewrite Hfail, Hid. reflexivity.
  - unfold handler.GetUser, service.GetUser. cbn [repository.GetUser
      test.Mock_UserRepository]. unfold test.GetUser.
    rewrite Hfail. reflexivity.
Qed.

Lemma missing_id_status_witness :
  let now := Date 2026 10 30 43200000000000 in
  let req := {| UpdateUserRequest.Name := "John Doe";
                UpdateUserRequest.DOB := "1990-05-15" |} in
  let m := test.NewMockUserRepository in
  handler.GetUser now (Some 999) m = (handler.fail 404 "user not found", m)
  ∧ handler.UpdateUser now now (Some 999) (Some req) m
    = (handler.fail 500 "failed to update user", m)
  ∧ handler.DeleteUser (Some 999) m
    = (handler.fail 500 "failed to delete user", m).
Proof.
  apply (proj1 (missing_id_status (Date 2026 10 30 43200000000000)
                  (Date 2026 10 30 43200000000000) 999
                  {| UpdateUserRequest.Name := "John Doe";
                     UpdateUserRequest.DOB := "1990-05-15" |}
                  test.NewMockUserRepository eq_refl eq_refl)).
  reflexivity.
Defined.

(** ** Create, then get *)

(** C7: on a store that is not set to fail, a create request that passes
    validation is answered 200 with a record that carries the name of the
    request, the date its [dob] parses to and the age of that date at the
    time of the response; a get of the returned id is answered 200 with the
    same id, name and date, and the age at the time of that response. *)
Theorem create_then_get
  (nowV now now' : Time) (req : CreateUserRequest.t)
  (m : test.MockUserRepository) :
  is_int32 (test.nextID m) →
  test.shouldFail m = false →
  validator.ValidateStruct (CreateUserRequest.fields nowV req) = None →
  ∃ dob u m',
    Parse (CreateUserRequest.DOB req) = Some dob
    ∧ handler.CreateUser nowV now (Some req) m
      = ({| handler.Status := 200; handler.Payload := handler.JSONUser u |}, m')
    ∧ UserResponse.ID u = test.nextID m
    ∧ UserResponse.Name u = CreateUserRequest.Name req
    ∧ UserResponse.DOB u = dob
    ∧ UserResponse.Age u = service.calculateAge now dob
    ∧ handler.GetUser now' (Some (UserResponse.ID u)) m'
      = ({| handler.Status := 200;
            handler.Payload :=
              handler.JSONUser
                {| UserResponse.ID := UserResponse.ID u;
                   UserResponse.Name := CreateUserRequest.Name req;
                   UserResponse.DOB := dob;
                   UserResponse.Age := service.calculateAge now' dob |} |},
         m').
Proof.
  intros Hrange Hfail Hvalid.
  pose proof Hvalid as Hacc. rewrite ValidateStruct_create in Hacc.
  apply accepted_dob in Hacc as [_ (dob & HP & _)].
  exists dob. unfold handler.CreateUser. rewrite Hvalid, HP.
  unfold service.CreateUser. cbn [repository.CreateUser
    test.Mock_UserRepository]. unfold test.CreateUser. rewrite Hfail.
  do 2 eexists. split; [reflexivity|]. split; [reflexivity|].
  cbn [service.response UserResponse.ID UserResponse.Name UserResponse.DOB
       UserResponse.Age User.ID User.Name User.Dob
       CreateUserParams.Name CreateUserParams.Dob].
  repeat (split; [reflexivity|]).
  unfold handler.GetUser, service.GetUser. cbn [repository.GetUser
    test.Mock_UserRepository]. unfold test.GetUser.
  cbn [test.shouldFail test.users UserResponse.ID service.response User.ID].
  rewrite (int32_id _ Hrange), lookup_insert_eq. reflexivity.
Qed.

Lemma create_then_get_witness :
  ∃ dob u m',
    Parse "1990-05-15" = Some dob
    ∧ handler.CreateUser (Date 2026 10 30 0) (Date 2026 10 30 1)
        (Some {| CreateUserRequest.Name := "John Doe";
                 CreateUserRequest.DOB := "1990-05-15" |})
        test.NewMockUserRepository
      = ({| handler.Status := 200; handler.Payload := handler.JSONUser u |}, m')
    ∧ UserResponse.ID u = 1
    ∧ UserResponse.Name u = "John Doe"
    ∧ UserResponse.DOB u = dob
    ∧ UserResponse.Age u = service.calculateAge (Date 2026 10 30 1) dob
    ∧ handler.GetUser (Date 2026 10 31 0) (Some (UserResponse.ID u)) m'
      = ({| handler.Status := 200;
            handler.Payload :=
              handler.JSONUser
                {| UserResponse.ID := UserResponse.ID u;
                   UserResponse.Name := "John Doe";
                   UserResponse.DOB := dob;
                   UserResponse.Age :=
                     service.calculateAge (Date 2026 10 31 0) dob |} |},
         m').
Proof.
  apply (create_then_get (Date 2026 10 30 0) (Date 2026 10 30 1)
           (Date 2026 10 31 0)
           {| CreateUserRequest.Name := "John Doe";
              CreateUserRequest.DOB := "1990-05-15" |}
           test.NewMockUserRepository).
  - unfold is_int32; simpl; lia.
  - reflexivity.
  - reflexivity.
Defined.

(** ** Delete, then get or delete again *)

(** C8: after a delete that succeeds, a get of the same id and a second
    delete of it both return the error "user not found", and leave the
    store as it is. *)
Theorem delete_then_not_found
  (now : Time) (id : Z) (m m' : test.MockUserRepository) :
  service.DeleteUser id m = (None, m') →
  service.GetUser now id m' = (inr (errorsNew "user not found"), m')
  ∧ service.DeleteUser id m' = (Some (errorsNew "user not found"), m').
Proof.
  unfold service.DeleteUser, service.GetUser.
  cbn [repository.DeleteUser repository.GetUser test.Mock_UserRepository].
  unfold test.DeleteUser, test.GetUser.
  destruct (test.shouldFail m) eqn:Hfail; [discriminate|].
  destruct (test.users m !! id) eqn:Hid; [|discriminate].
  intros [= <-]. cbn [test.shouldFail test.users].
  rewrite lookup_delete_eq. split; reflexivity.
Qed.

Lemma delete_then_not_found_witness :
  let m := snd (test.CreateUser
                  {| CreateUserParams.Name := "Jane Smith";
                     CreateUserParams.Dob := Date 1992 8 22 0 |}
                  test.NewMockUserRepository) in
  let m' := snd (service.DeleteUser 1 m) in
  service.GetUser (Date 2026 10 30 0) 1 m'
  = (inr (errorsNew "user not found"), m')
  ∧ service.DeleteUser 1 m' = (Some (errorsNew "user not found"), m').
Proof.
  apply (delete_then_not_found (Date 2026 10 30 0) 1
           (snd (test.CreateUser
                   {| CreateUserParams.Name := "Jane Smith";
                      CreateUserParams.Dob := Date 1992 8 22 0 |}
                   test.NewMockUserRepository))).
  reflexivity.
Defined.

(** ** Identifiers *)

Section Identifiers.

Import test.

(** The two guards every method of the mock starts with. *)
Ltac store_cases m :=
  destruct (shouldFail m) eqn:?;
  [|destruct (users m !! _) eqn:?];
  try reflexivity; try assumption.

Lemma GetUser_nextID id m : nextID (snd (GetUser id m)) = nextID m.
Proof. unfold GetUser. store_cases m. Qed.

Lemma UpdateUser_nextID arg m : nextID (snd (UpdateUser arg m)) = nextID m.
Proof. unfold UpdateUser. store_cases m. Qed.

Lemma DeleteUser_nextID id m : nextID (snd (DeleteUser id m)) = nextID m.
Proof. unfold DeleteUser. store_cases m. Qed.

(** The ids of a run count up from the counter, wrapping at 32 bits. *)
Lemma run_ids ops : ∀ m,
  is_int32 (nextID m) →
  fst (run ops m)
  = map (λ i, int32 (nextID m + Z.of_nat i))
      (seq 0 (length (fst (run ops m)))).
Proof.
  induction ops as [|op ops IH]; intros m Hm; [reflexivity|].
  destruct op as [[arg|id|arg|id]|fail]; cbn [run].
  - unfold CreateUser. destruct (shouldFail m) eqn:Hfail; [apply IH, Hm|].
    set (m1 := {| users := _; nextID := _; shouldFail := _ |}).
    specialize (IH m1 (int32_range _)).
    destruct (run ops m1) as [ids m2]. cbn [fst User.ID] in *.
    cbn [length seq map]. f_equal.
    + rewrite Z.add_0_r. symmetry. apply int32_id, Hm.
    + rewrite IH at 1. rewrite <- seq_shift, map_map.
      apply map_ext. intros i. subst m1. cbn [nextID].
      rewrite int32_add_l. f_equal. lia.
  - rewrite <- (GetUser_nextID id m). apply IH.
    rewrite GetUser_nextID. exact Hm.
  - rewrite <- (UpdateUser_nextID arg m). apply IH.
    rewrite UpdateUser_nextID. exact Hm.
  - rewrite <- (DeleteUser_nextID id m). apply IH.
    rewrite DeleteUser_nextID. exact Hm.
  - apply (IH (SetShouldFail fail m)), Hm.
Qed.

Lemma filed_by_id_step op m :
  filed_by_id m → filed_by_id (snd (run [op] m)).
Proof.
  intros Hm. destruct op as [[arg|id|arg|id]|fail]; cbn [run].
  - unfold CreateUser. destruct (shouldFail m); [exact Hm|].
    intros k user. cbn. rewrite lookup_insert.
    case_decide; [intros [= <-]; subst; reflexivity | apply Hm].
  - unfold GetUser. destruct (shouldFail m); [exact Hm|].
    destruct (users m !! id); exact Hm.
  - unfold UpdateUser. destruct (shouldFail m); [exact Hm|].
    destruct (users m !! _) as [old|] eqn:Hold; [|exact Hm].
    intros k user. cbn. rewrite lookup_insert.
    case_decide; [intros [= <-]; subst; cbn; apply Hm, Hold | apply Hm].
  - unfold DeleteUser. destruct (shouldFail m); [exact Hm|].
    destruct (users m !! id); [|exact Hm].
    intros k user. cbn. rewrite lookup_delete.
    case_decide; [discriminate | apply Hm].
  - exact Hm.
Qed.

Lemma run_cons op ops m :
  snd (run (op :: ops) m) = snd (run ops (snd (run [op] m))).
Proof.
  destruct op as [[arg|id|arg|id]|fail]; cbn [run]; try reflexivity.
  unfold CreateUser. destruct (shouldFail m); [reflexivity|].
  cbn. destruct (run ops _); reflexivity.
Qed.

Lemma run_filed_by_id ops : ∀ m,
  filed_by_id m → filed_by_id (snd (run ops m)).
Proof.
  induction ops as [|op ops IH]; intros m Hm; [exact Hm|].
  rewrite run_cons. apply IH, filed_by_id_step, Hm.
Qed.

Lemma DeleteUser_shouldFail id m :
  shouldFail (snd (DeleteUser id m)) = shouldFail m.
Proof. unfold DeleteUser. store_cases m. Qed.

(** A run of cycles, each a create followed by a delete: every create
    succeeds. *)
Lemma run_cycles_length arg (f : nat → Z) l : ∀ m,
  shouldFail m = false →
  length
    (fst (run
            (flat_map
               (λ i, [OpCall (repository.CallCreateUser arg);
                      OpCall (repository.CallDeleteUser (f i))]) l) m))
  = length l.
Proof.
  induction l as [|i l IH]; intros m Hm; [reflexivity|].
  cbn [flat_map app run]. unfold CreateUser. rewrite Hm.
  set (m1 := {| users := _; nextID := _; shouldFail := _ |}).
  specialize (IH (snd (DeleteUser (f i) m1))).
  rewrite DeleteUser_shouldFail in IH. specialize (IH eq_refl).
  destruct (run _ (snd (DeleteUser (f i) m1))) as [ids m2].
  cbn [fst length] in *. congruence.
Qed.

(** C9, as the repository has it: the counter starts at 1 and, as long as
    fewer than 2^31 records have been created, the k-th record created gets
    the id k whatever else was called in between, so that the ids are
    positive, pairwise distinct and never handed out again after a delete;
    every record is filed under its own id, and an update of a record
    returns and files a record with the id the record had. *)
Theorem ids_count_up (ops : list Op) (ids : list Z) (m : MockUserRepository) :
  run ops NewMockUserRepository = (ids, m) →
  nextID NewMockUserRepository = 1
  ∧ (Z.of_nat (length ids) < 2 ^ 31 →
     ids = map Z.of_nat (seq 1 (length ids))
     ∧ List.NoDup ids
     ∧ Forall (λ id, 0 < id) ids)
  ∧ filed_by_id m
  ∧ ∀ arg old,
      shouldFail m = false →
      users m !! UpdateUserParams.ID arg = Some old →
      ∃ new m',
        UpdateUser arg m = (inl new, m')
        ∧ User.ID new = User.ID old
        ∧ User.ID new = UpdateUserParams.ID arg
        ∧ users m' !! UpdateUserParams.ID arg = Some new
        ∧ nextID m' = nextID m.
Proof.
  intros Hrun. split; [reflexivity|].
  assert (filed_by_id m) as Hfiled.
  { replace m with (snd (run ops NewMockUserRepository)) by (rewrite Hrun; reflexivity).
    apply run_filed_by_id. intros k user. cbn. rewrite lookup_empty. discriminate. }
  split; [|split; [exact Hfiled|]].
  - intros Hlen.
    assert (ids = map Z.of_nat (seq 1 (length ids))) as Hids.
    { pose proof (run_ids ops NewMockUserRepository) as H.
      rewrite Hrun in H. cbn [fst nextID NewMockUserRepository] in H.
      rewrite H at 1; [|unfold is_int32; lia].
      rewrite <- seq_shift, map_map. apply map_ext_in.
      intros i [_ Hi]%in_seq. rewrite int32_id; [lia|].
      unfold is_int32. lia. }
    split; [exact Hids|]. rewrite Hids. split.
    + apply Finite.Injective_map_NoDup; [|apply seq_NoDup].
      intros x y. lia.
    + apply List.Forall_forall.
      intros id (i & <- & Hi%in_seq)%in_map_iff. lia.
  - intros arg old Hfail Hold. unfold UpdateUser. rewrite Hfail, Hold.
    do 2 eexists. split; [reflexivity|]. cbn.
    rewrite lookup_insert_eq. repeat split. apply Hfiled, Hold.
Qed.

End Identifiers.

Lemma ids_count_up_witness :
  [1; 2; 3] = map Z.of_nat (seq 1 3)
  ∧ List.NoDup [1; 2; 3]
  ∧ Forall (λ id, 0 < id) [1; 2; 3].
Proof.
  refine (proj1 (proj2
    (ids_count_up
       [ test.OpCall (repository.CallCreateUser
           {| CreateUserParams.Name := "John Doe";
              CreateUserParams.Dob := Date 1990 5 15 0 |});
         test.OpCall (repository.CallCreateUser
           {| CreateUserParams.Name := "Jane Smith";
              CreateUserParams.Dob := Date 1992 8 22 0 |});
         test.OpCall (repository.CallDeleteUser 2);
         test.OpCall (repository.CallCreateUser
           {| CreateUserParams.Name := "Bob Johnson";
              CreateUserParams.Dob := Date 1985 3 10 0 |}) ]
       [1; 2; 3] _ eq_refl)) _).
  simpl. lia.
Defined.

(** C9 as the specification words it fails: the counter is an [int32].
    Create a record and delete it again, 2^31 times over, on a fresh
    repository: the last record created gets the id -2^31. *)
Lemma id_counter_wraps :
  In (-2147483648)
    (fst (test.run
            (flat_map
               (λ i, [test.OpCall (repository.CallCreateUser
                        {| CreateUserParams.Name := "a";
                           CreateUserParams.Dob := Date 1990 5 15 0 |});
                      test.OpCall (repository.CallDeleteUser
                        (int32 (1 + Z.of_nat i)))])
               (seq 0 (Z.to_nat 2147483648)))
            test.NewMockUserRepository)).
Proof.
  rewrite run_ids by (unfold is_int32; cbn; lia).
  rewrite run_cycles_length by reflexivity.
  rewrite length_seq.
  apply in_map_iff. exists (Z.to_nat 2147483647). split.
  - rewrite Z2Nat.id by lia. reflexivity.
  - apply in_seq. lia.
Qed.

(** * Further properties *)

(** ** The in-memory repository, method by method *)

Section MockMethods.

Import test.

Ltac mock_method :=
  unfold CreateUser, GetUser, UpdateUser, DeleteUser;
  repeat match goal with
         | |- context [if shouldFail ?m then _ else _] =>
             destruct (shouldFail m) eqn:?
         | |- context [match users ?m !! ?k with _ => _ end] =>
             destruct (users m !! k) eqn:?
         end;
  cbn [fst snd users nextID shouldFail].

Lemma GetUser_store id m : snd (GetUser id m) = m.
Proof. mock_method; reflexivity. Qed.

Lemma GetUser_same k m m' :
  shouldFail m' = shouldFail m → users m' !! k = users m !! k →
  fst (GetUser k m') = fst (GetUser k m).
Proof.
  intros Hf Hu. unfold GetUser. rewrite Hf, Hu.
  destruct (shouldFail m); [reflexivity|].
  destruct (users m !! k); reflexivity.
Qed.

(** X1: a call on one id leaves what [GetUser] returns for every other id
    as it was: an update or delete of another id, a get of any id, and a
    create as long as the id asked for is not the one the counter is at. *)
Theorem other_ids_untouched (k : Z) (m : MockUserRepository) :
  (∀ arg, UpdateUserParams.ID arg ≠ k →
     fst (GetUser k (snd (UpdateUser arg m))) = fst (GetUser k m))
  ∧ (∀ id, id ≠ k →
     fst (GetUser k (snd (DeleteUser id m))) = fst (GetUser k m))
  ∧ (∀ arg, nextID m ≠ k →
     fst (GetUser k (snd (CreateUser arg m))) = fst (GetUser k m))
  ∧ (∀ id, snd (GetUser id m) = m).
Proof.
  repeat split.
  - intros arg Hne. apply GetUser_same; mock_method; try done.
    rewrite lookup_insert_ne; done.
  - intros id Hne. apply GetUser_same; mock_method; try done.
    rewrite lookup_delete_ne; done.
  - intros arg Hne. apply GetUser_same; mock_method; try done.
    rewrite lookup_insert_ne; done.
  - intros id. apply GetUser_store.
Qed.

Lemma keys_below_fresh m : keys_below m → users m !! nextID m = None.
Proof.
  intros Hm. destruct (users m !! nextID m) as [user|] eqn:E; [|reflexivity].
  apply Hm in E. lia.
Qed.

(** X2: how the number of stored users moves.  On a store that is not set
    to fail and whose ids are all below the counter, a create adds one user;
    a delete of a stored id takes one away and a delete of any other id none;
    an update and a get change nothing. *)
Theorem user_count_steps (m : MockUserRepository) :
  keys_below m →
  shouldFail m = false →
  (∀ arg, GetUserCount (snd (CreateUser arg m)) = S (GetUserCount m))
  ∧ (∀ id, is_Some (users m !! id) →
       S (GetUserCount (snd (DeleteUser id m))) = GetUserCount m)
  ∧ (∀ id, users m !! id = None →
       GetUserCount (snd (DeleteUser id m)) = GetUserCount m)
  ∧ (∀ arg, GetUserCount (snd (UpdateUser arg m)) = GetUserCount m)
  ∧ (∀ id, GetUserCount (snd (GetUser id m)) = GetUserCount m).
Proof.
  intros Hkeys Hfail. unfold GetUserCount. repeat split.
  - intros arg. unfold CreateUser. rewrite Hfail. cbn [snd users].
    apply map_size_insert_None, keys_below_fresh, Hkeys.
  - intros id [user Hid]. unfold DeleteUser. rewrite Hfail, Hid.
    cbn [snd users]. rewrite map_size_delete_Some by eauto.
    pose proof (map_size_ne_0_lookup_2 (users m) id ltac:(eauto)). lia.
  - intros id Hid. unfold DeleteUser. rewrite Hfail, Hid. reflexivity.
  - intros arg. unfold UpdateUser. rewrite Hfail.
    destruct (users m !! _) as [old|] eqn:Hold; [|reflexivity].
    cbn [snd users]. apply map_size_insert_Some. eauto.
  - intros id. unfold GetUser. rewrite Hfail.
    destruct (users m !! id); reflexivity.
Qed.

End MockMethods.

Lemma user_count_steps_witness :
  test.GetUserCount
    (snd (test.CreateUser
            {| CreateUserParams.Name := "John Doe";
               CreateUserParams.Dob := Date 1990 5 15 0 |}
            test.NewMockUserRepository))
  = S (test.GetUserCount test.NewMockUserRepository).
Proof.
  refine (proj1 (user_count_steps test.NewMockUserRepository _ eq_refl) _).
  intros k user. cbn. rewrite lookup_empty. discriminate.
Defined.

(** ** Runs before the counter wraps *)

Section Runs.

Import test.

Lemma keys_below_step op m :
  keys_below m →
  (∀ arg, op = OpCall (repository.CallCreateUser arg) →
     shouldFail m = false → nextID m + 1 < 2 ^ 31) →
  1 <= nextID m →
  keys_below (snd (run [op] m)).
Proof.
  intros Hm Hcreate Hpos.
  destruct op as [[arg|id|arg|id]|fail]; cbn [run].
  - unfold CreateUser. destruct (shouldFail m) eqn:Hfail; [exact Hm|].
    specialize (Hcreate arg eq_refl eq_refl).
    intros k user. cbn. rewrite lookup_insert.
    rewrite int32_id by (unfold is_int32; lia).
    case_decide; [intros _; lia | intros Hin%Hm; lia].
  - unfold GetUser. destruct (shouldFail m); [exact Hm|].
    destruct (users m !! id); exact Hm.
  - unfold UpdateUser. destruct (shouldFail m); [exact Hm|].
    destruct (users m !! _) as [old|] eqn:Hold; [|exact Hm].
    intros k user. cbn. rewrite lookup_insert.
    case_decide; [intros _; subst; apply (Hm _ _ Hold) | apply Hm].
  - unfold DeleteUser. destruct (shouldFail m); [exact Hm|].
    destruct (users m !! id); [|exact Hm].
    intros k user. cbn. rewrite lookup_delete.
    case_decide; [discriminate | apply Hm].
  - exact Hm.
Qed.

Lemma run_invariant ops : ∀ m ids m',
  run ops m = (ids, m') →
  keys_below m →
  1 <= nextID m →
  nextID m + Z.of_nat (length ids) < 2 ^ 31 →
  nextID m' = nextID m + Z.of_nat (length ids)
  ∧ keys_below m'
  ∧ (GetUserCount m' <= GetUserCount m + length ids)%nat.
Proof.
  induction ops as [|op ops IH]; intros m ids m' Hrun Hkeys Hpos Hlen.
  { injection Hrun as <- <-. cbn. split; [lia | split; [exact Hkeys | lia]]. }
  destruct op as [[arg|id|arg|id]|fail]; cbn [run] in Hrun.
  - pose proof (keys_below_step (OpCall (repository.CallCreateUser arg)) m Hkeys)
      as Hstep.
    cbn [run] in Hstep. unfold CreateUser in Hrun, Hstep.
    destruct (shouldFail m) eqn:Hfail; [apply (IH _ _ _ Hrun); assumption|].
    set (m1 := {| users := _; nextID := _; shouldFail := _ |}) in *.
    destruct (run ops m1) as [ids1 m2] eqn:Hrun1.
    injection Hrun as <- <-. cbn [length] in *.
    assert (nextID m1 = nextID m + 1) as Hnext
      by (subst m1; cbn; apply int32_id; unfold is_int32; lia).
    destruct (IH _ _ _ Hrun1) as (Hn & Hk & Hc).
    + apply Hstep; [intros _ _ _; lia | exact Hpos].
    + lia.
    + lia.
    + split; [lia | split; [exact Hk |]].
      assert (GetUserCount m1 <= S (GetUserCount m))%nat; [|lia].
      unfold GetUserCount. subst m1. cbn [users].
      rewrite map_size_insert. destruct (users m !! nextID m); cbn; lia.
  - destruct (IH _ _ _ Hrun) as (Hn & Hk & Hc).
    + apply (keys_below_step (OpCall (repository.CallGetUser id)) m Hkeys);
        [discriminate | exact Hpos].
    + rewrite GetUser_nextID. exact Hpos.
    + rewrite GetUser_nextID. exact Hlen.
    + rewrite GetUser_nextID in Hn.
      split; [exact Hn | split; [exact Hk |]].
      rewrite GetUser_store in Hc. exact Hc.
  - destruct (IH _ _ _ Hrun) as (Hn & Hk & Hc).
    + apply (keys_below_step (OpCall (repository.CallUpdateUser arg)) m Hkeys);
        [discriminate | exact Hpos].
    + rewrite UpdateUser_nextID. exact Hpos.
    + rewrite UpdateUser_nextID. exact Hlen.
    + rewrite UpdateUser_nextID in Hn.
      split; [exact Hn | split; [exact Hk |]].
      assert (GetUserCount (snd (UpdateUser arg m)) = GetUserCount m);
        [|lia].
      unfold GetUserCount, UpdateUser. destruct (shouldFail m); [reflexivity|].
      destruct (users m !! _) eqn:Hold; [|reflexivity].
      cbn. apply map_size_insert_Some. eauto.
  - destruct (IH _ _ _ Hrun) as (Hn & Hk & Hc).
    + apply (keys_below_step (OpCall (repository.CallDeleteUser id)) m Hkeys);
        [discriminate | exact Hpos].
    + rewrite DeleteUser_nextID. exact Hpos.
    + rewrite DeleteUser_nextID. exact Hlen.
    + rewrite DeleteUser_nextID in Hn.
      split; [exact Hn | split; [exact Hk |]].
      assert (GetUserCount (snd (DeleteUser id m)) <= GetUserCount m)%nat;
        [|lia].
      unfold GetUserCount, DeleteUser. destruct (shouldFail m); [cbn; lia|].
      destruct (users m !! id) eqn:Hold; [|cbn; lia].
      cbn. rewrite map_size_delete, Hold. cbn. lia.
  - apply (IH _ _ _ Hrun); assumption.
Qed.

(** X3: on a fresh repository, whatever is called, as long as fewer than
    2^31 - 1 records have been created: the counter is one more than the
    number of records created, every stored id is positive and below the
    counter (so the next create overwrites nothing), and no more users are
    stored than were created. *)
Theorem counter_above_ids (ops : list Op) (ids : list Z)
  (m : MockUserRepository) :
  run ops NewMockUserRepository = (ids, m) →
  Z.of_nat (length ids) < 2 ^ 31 - 1 →
  nextID m = 1 + Z.of_nat (length ids)
  ∧ keys_below m
  ∧ users m !! nextID m = None
  ∧ (GetUserCount m <= length ids)%nat.
Proof.
  intros Hrun Hlen.
  destruct (run_invariant ops _ _ _ Hrun) as (Hn & Hk & Hc).
  - intros k user. cbn. rewrite lookup_empty. discriminate.
  - cbn. lia.
  - cbn. lia.
  - split; [exact Hn|]. split; [exact Hk|].
    split; [apply keys_below_fresh, Hk | exact Hc].
Qed.

End Runs.

Lemma counter_above_ids_witness :
  test.nextID
    (snd (test.run
            [ test.OpCall (repository.CallCreateUser
                {| CreateUserParams.Name := "John Doe";
                   CreateUserParams.Dob := Date 1990 5 15 0 |});
              test.OpCall (repository.CallDeleteUser 1) ]
            test.NewMockUserRepository))
  = 1 + Z.of_nat 1.
Proof.
  refine (proj1 (counter_above_ids
    [ test.OpCall (repository.CallCreateUser
        {| CreateUserParams.Name := "John Doe";
           CreateUserParams.Dob := Date 1990 5 15 0 |});
      test.OpCall (repository.CallDeleteUser 1) ] [1] _ eq_refl _)).
  simpl. lia.
Defined.

(** ** The handlers on the in-memory repository *)

Section MockHandlers.

Import test.

Ltac run_handler :=
  unfold handler.GetUser, handler.CreateUser, handler.UpdateUser,
    handler.DeleteUser, service.GetUser, service.CreateUser,
    service.UpdateUser, service.DeleteUser;
  cbn [repository.GetUser repository.CreateUser repository.UpdateUser
       repository.DeleteUser Mock_UserRepository];
  unfold GetUser, CreateUser, UpdateUser, DeleteUser.

(** X4: on a store that is not set to fail, an update request that passes
    validation, for an id the store holds, is answered 200 with that id,
    the name of the request, the date its [dob] parses to and the age of
    that date; the counter stays, and a get of the id is answered 200 with
    the new name and date. *)
Theorem update_then_get
  (nowV now now' : Time) (id : Z) (req : UpdateUserRequest.t)
  (old : User.t) (m : MockUserRepository) :
  shouldFail m = false →
  filed_by_id m →
  users m !! int32 id = Some old →
  validator.ValidateStruct (UpdateUserRequest.fields nowV req) = None →
  ∃ dob m',
    Parse (UpdateUserRequest.DOB req) = Some dob
    ∧ handler.UpdateUser nowV now (Some id) (Some req) m
      = ({| handler.Status := 200;
            handler.Payload :=
              handler.JSONUser
                {| UserResponse.ID := int32 id;
                   UserResponse.Name := UpdateUserRequest.Name req;
                   UserResponse.DOB := dob;
                   UserResponse.Age := service.calculateAge now dob |} |},
         m')
    ∧ nextID m' = nextID m
    ∧ handler.GetUser now' (Some id) m'
      = ({| handler.Status := 200;
            handler.Payload :=
              handler.JSONUser
                {| UserResponse.ID := int32 id;
                   UserResponse.Name := UpdateUserRequest.Name req;
                   UserResponse.DOB := dob;
                   UserResponse.Age := service.calculateAge now' dob |} |},
         m').
Proof.
  intros Hfail Hfiled Hold Hvalid.
  pose proof Hvalid as Hacc. rewrite ValidateStruct_update in Hacc.
  apply accepted_dob in Hacc as [_ (dob & HP & _)].
  exists dob. run_handler. rewrite Hvalid, HP.
  cbn [UpdateUserParams.ID UpdateUserParams.Name UpdateUserParams.Dob].
  rewrite Hfail, Hold. eexists. split; [reflexivity|].
  cbn [service.response User.ID User.Name User.Dob].
  rewrite (Hfiled _ _ Hold). split; [reflexivity|]. split; [reflexivity|].
  cbn [shouldFail users]. rewrite lookup_insert_eq. reflexivity.
Qed.

(** X5: on a store that is not set to fail, a delete of an id the store
    holds is answered 204 without a body, and a get of that id is then
    answered 404 "user not found". *)
Theorem delete_then_get
  (now : Time) (id : Z) (old : User.t) (m : MockUserRepository) :
  shouldFail m = false →
  users m !! int32 id = Some old →
  ∃ m',
    handler.DeleteUser (Some id) m
    = ({| handler.Status := 204; handler.Payload := handler.NoBody |}, m')
    ∧ users m' = delete (int32 id) (users m)
    ∧ handler.GetUser now (Some id) m'
      = (handler.fail 404 "user not found", m').
Proof.
  intros Hfail Hold. run_handler. rewrite Hfail, Hold.
  eexists. split; [reflexivity|]. split; [reflexivity|].
  cbn [shouldFail users]. rewrite lookup_delete_eq. reflexivity.
Qed.

(** X6: a store set to fail answers every request that reaches it with an
    error and stays as it is: 404 for a get, 500 for a delete, and 500 for
    a create or an update whose body passes validation. *)
Theorem failing_store_status
  (nowV now : Time) (id : Z) (create : CreateUserRequest.t)
  (update : UpdateUserRequest.t) (m : MockUserRepository) :
  shouldFail m = true →
  handler.GetUser now (Some id) m = (handler.fail 404 "user not found", m)
  ∧ handler.DeleteUser (Some id) m
    = (handler.fail 500 "failed to delete user", m)
  ∧ (validator.ValidateStruct (CreateUserRequest.fields nowV create) = None →
     handler.CreateUser nowV now (Some create) m
     = (handler.fail 500 "failed to create user", m))
  ∧ (validator.ValidateStruct (UpdateUserRequest.fields nowV update) = None →
     handler.UpdateUser nowV now (Some id) (Some update) m
     = (handler.fail 500 "failed to update user", m)).
Proof.
  intros Hfail. split; [|split; [|split]].
  - run_handler. rewrite Hfail. reflexivity.
  - run_handler. rewrite Hfail. reflexivity.
  - intros Hvalid. pose proof Hvalid as Hacc.
    rewrite ValidateStruct_create in Hacc.
    apply accepted_dob in Hacc as [_ (dob & HP & _)].
    run_handler. rewrite Hvalid, HP, Hfail. reflexivity.
  - intros Hvalid. pose proof Hvalid as Hacc.
    rewrite ValidateStruct_update in Hacc.
    apply accepted_dob in Hacc as [_ (dob & HP & _)].
    run_handler. rewrite Hvalid, HP, Hfail. reflexivity.
Qed.

(** X7: a request that is not answered with a success status leaves the
    in-memory store exactly as it was, whatever the request: nothing is
    written by a request that fails. *)
Theorem failed_request_keeps_store
  (nowV now : Time) (id : option Z) (create : option CreateUserRequest.t)
  (update : option UpdateUserRequest.t) (m : MockUserRepository) :
  snd (handler.GetUser now id m) = m
  ∧ (succeeded (fst (handler.CreateUser nowV now create m)) = false →
     snd (handler.CreateUser nowV now create m) = m)
  ∧ (succeeded (fst (handler.UpdateUser nowV now id update m)) = false →
     snd (handler.UpdateUser nowV now id update m) = m)
  ∧ (succeeded (fst (handler.DeleteUser id m)) = false →
     snd (handler.DeleteUser id m) = m).
Proof.
  split; [|split; [|split]].
  - run_handler. destruct id as [id|]; [|reflexivity].
    destruct (shouldFail m); [reflexivity|].
    destruct (users m !! int32 id); reflexivity.
  - run_handler. destruct create as [req|]; [|reflexivity].
    destruct (validator.ValidateStruct _); [reflexivity|].
    destruct (Parse _); [|reflexivity].
    destruct (shouldFail m); [reflexivity | discriminate].
  - run_handler. destruct id as [id|]; [|reflexivity].
    destruct update as [req|]; [|reflexivity].
    destruct (validator.ValidateStruct _); [reflexivity|].
    destruct (Parse _); [|reflexivity].
    destruct (shouldFail m); [reflexivity|].
    cbn [UpdateUserParams.ID].
    destruct (users m !! int32 id); [discriminate | reflexivity].
  - run_handler. destruct id as [id|]; [|reflexivity].
    destruct (shouldFail m); [reflexivity|].
    destruct (users m !! int32 id); [discriminate | reflexivity].
Qed.

End MockHandlers.

Lemma update_then_get_witness :
  let m := snd (test.CreateUser
                  {| CreateUserParams.Name := "John Doe";
                     CreateUserParams.Dob := Date 1990 5 15 0 |}
                  test.NewMockUserRepository) in
  ∃ dob m',
    Parse "1990-05-20" = Some dob
    ∧ handler.UpdateUser (Date 2026 10 30 0) (Date 2026 10 30 1) (Some 1)
        (Some {| UpdateUserRequest.Name := "John Doe Updated";
                 UpdateUserRequest.DOB := "1990-05-20" |}) m
      = ({| handler.Status := 200;
            handler.Payload :=
              handler.JSONUser
                {| UserResponse.ID := int32 1;
                   UserResponse.Name := "John Doe Updated";
                   UserResponse.DOB := dob;
                   UserResponse.Age :=
                     service.calculateAge (Date 2026 10 30 1) dob |} |},
         m')
    ∧ test.nextID m' = test.nextID m
    ∧ handler.GetUser (Date 2026 10 31 0) (Some 1) m'
      = ({| handler.Status := 200;
            handler.Payload :=
              handler.JSONUser
                {| UserResponse.ID := int32 1;
                   UserResponse.Name := "John Doe Updated";
                   UserResponse.DOB := dob;
                   UserResponse.Age :=
                     service.calculateAge (Date 2026 10 31 0) dob |} |},
         m').
Proof.
  apply (update_then_get (Date 2026 10 30 0) (Date 2026 10 30 1)
           (Date 2026 10 31 0) 1
           {| UpdateUserRequest.Name := "John Doe Updated";
              UpdateUserRequest.DOB := "1990-05-20" |}
           {| User.ID := 1; User.Name := "John Doe";
              User.Dob := Date 1990 5 15 0 |}).
  - reflexivity.
  - apply (filed_by_id_step
             (test.OpCall (repository.CallCreateUser
                {| CreateUserParams.Name := "John Doe";
                   CreateUserParams.Dob := Date 1990 5 15 0 |}))
             test.NewMockUserRepository).
    intros k user. cbn. rewrite lookup_empty. discriminate.
  - reflexivity.
  - reflexivity.
Defined.

Lemma delete_then_get_witness :
  let m := snd (test.CreateUser
                  {| CreateUserParams.Name := "Jane Smith";
                     CreateUserParams.Dob := Date 1992 8 22 0 |}
                  test.NewMockUserRepository) in
  ∃ m',
    handler.DeleteUser (Some 1) m
    = ({| handler.Status := 204; handler.Payload := handler.NoBody |}, m')
    ∧ test.users m' = delete (int32 1) (test.users m)
    ∧ handler.GetUser (Date 2026 10 30 0) (Some 1) m'
      = (handler.fail 404 "user not found", m').
Proof.
  apply (delete_then_get (Date 2026 10 30 0) 1
           {| User.ID := 1; User.Name := "Jane Smith";
              User.Dob := Date 1992 8 22 0 |}).
  - reflexivity.
  - reflexivity.
Defined.

Lemma failing_store_status_witness :
  let m := test.SetShouldFail true test.NewMockUserRepository in
  handler.GetUser (Date 2026 10 30 0) (Some 1) m
  = (handler.fail 404 "user not found", m).
Proof.
  apply (failing_store_status (Date 2026 10 30 0) (Date 2026 10 30 0) 1
           {| CreateUserRequest.Name := "a"; CreateUserRequest.DOB := "" |}
           {| UpdateUserRequest.Name := "a"; UpdateUserRequest.DOB := "" |}
           (test.SetShouldFail true test.NewMockUserRepository) eq_refl).
Defined.

(** ** The handlers on any repository *)

Lemma validation_message_not_parse_message now name dob msg :
  report (first_violations now name dob) = Some (errorsNew msg) →
  msg ≠ "invalid date format (Use YYYY-MM-DD)"
  ∧ msg ≠ "invalid data format (use YYYY-MM-DD)".
Proof.
  unfold first_violations, name_violation, dob_violation.
  destruct (String.eqb name "");
    [|destruct (255 <? utf8.RuneCountInString name)%nat];
    (destruct (String.eqb dob "");
     [|destruct (Parse dob) as [d|]; [destruct (Before d now)|]]);
    cbn [app report]; intros [= <-]; split; discriminate.
Qed.

Section AnyRepository.

Context {R : Type} `{repository.UserRepository R}.

Ltac handler_cases :=
  unfold handler.GetUser, handler.CreateUser, handler.UpdateUser,
    handler.DeleteUser, service.GetUser, service.CreateUser,
    service.UpdateUser, service.DeleteUser;
  repeat match goal with
         | |- context [match ?x with _ => _ end] =>
             lazymatch x with
             | repository.GetUser _ _ => destruct x as [[?|?] ?]
             | repository.CreateUser _ _ => destruct x as [[?|?] ?]
             | repository.UpdateUser _ _ => destruct x as [[?|?] ?]
             | repository.DeleteUser _ _ => destruct x as [[?|] ?]
             | validator.ValidateStruct _ => destruct x eqn:?
             | Parse _ => destruct x eqn:?
             end
         end;
  cbn [fst snd handler.Status handler.fail];
  unfold handler.StatusOK, handler.StatusNoContent, handler.StatusBadRequest,
    handler.StatusNotFound, handler.StatusInternalServerError.

(** X8: whatever the repository, a request is answered 400 exactly when
    its id or its body cannot be read or its body fails validation, and
    then the store is handed back untouched: a request answered 400 has
    called no method of the repository. *)
Theorem bad_request_iff
  (nowV now : Time) (id : option Z) (create : option CreateUserRequest.t)
  (update : option UpdateUserRequest.t) (r : R) :
  (handler.Status (fst (handler.GetUser now id r)) = 400 ↔ id = None)
  ∧ (handler.Status (fst (handler.DeleteUser id r)) = 400 ↔ id = None)
  ∧ (handler.Status (fst (handler.CreateUser nowV now create r)) = 400 ↔
     ∀ req, create = Some req →
       validator.ValidateStruct (CreateUserRequest.fields nowV req) ≠ None)
  ∧ (handler.Status (fst (handler.UpdateUser nowV now id update r)) = 400 ↔
     id = None
     ∨ ∀ req, update = Some req →
         validator.ValidateStruct (UpdateUserRequest.fields nowV req) ≠ None)
  ∧ (handler.Status (fst (handler.GetUser now id r)) = 400 →
     snd (handler.GetUser now id r) = r)
  ∧ (handler.Status (fst (handler.DeleteUser id r)) = 400 →
     snd (handler.DeleteUser id r) = r)
  ∧ (handler.Status (fst (handler.CreateUser nowV now create r)) = 400 →
     snd (handler.CreateUser nowV now create r) = r)
  ∧ (handler.Status (fst (handler.UpdateUser nowV now id update r)) = 400 →
     snd (handler.UpdateUser nowV now id update r) = r).
Proof.
  split; [|split; [|split; [|split; [|split; [|split; [|split]]]]]].
  - destruct id; handler_cases; split; intros; first [reflexivity | discriminate | exfalso; lia].
  - destruct id; handler_cases; split; intros; first [reflexivity | discriminate | exfalso; lia].
  - destruct create as [req|].
    + unfold handler.CreateUser.
      destruct (validator.ValidateStruct _) as [err|] eqn:Hv.
      * cbn. split; [intros _ req' [= <-]; rewrite Hv; discriminate|].
        reflexivity.
      * pose proof Hv as Hacc. rewrite ValidateStruct_create in Hacc.
        apply accepted_dob in Hacc as [_ (dob & -> & _)].
        handler_cases; (split; [discriminate|]);
          intros Hall; destruct (Hall req eq_refl Hv).
    + cbn. split; [intros _ req [=] | reflexivity].
  - destruct id as [id|]; [|cbn; split; [left|]; reflexivity].
    destruct update as [req|].
    + unfold handler.UpdateUser.
      destruct (validator.ValidateStruct _) as [err|] eqn:Hv.
      * cbn. split; [intros _; right; intros req' [= <-]; rewrite Hv;
                     discriminate|].
        reflexivity.
      * pose proof Hv as Hacc. rewrite ValidateStruct_update in Hacc.
        apply accepted_dob in Hacc as [_ (dob & -> & _)].
        handler_cases; (split; [discriminate|]);
          intros [[=]|Hall]; destruct (Hall req eq_refl Hv).
    + cbn. split; [intros _; right; intros req [=] | reflexivity].
  - destruct id; handler_cases; intros; first [reflexivity | discriminate | exfalso; lia].
  - destruct id; handler_cases; intros; first [reflexivity | discriminate | exfalso; lia].
  - destruct create; handler_cases; intros; first [reflexivity | discriminate | exfalso; lia].
  - destruct id, update; handler_cases; intros; first [reflexivity | discriminate | exfalso; lia].
Qed.

(** X9: whatever the repository and the request, [CreateUser] never
    answers "invalid date format (Use YYYY-MM-DD)" and [UpdateUser] never
    "invalid data format (use YYYY-MM-DD)": a body that passes validation
    holds a date that parses, so the second parse in the handlers cannot
    fail. *)
Theorem parse_after_validation_succeeds
  (nowV now : Time) (id : option Z) (create : option CreateUserRequest.t)
  (update : option UpdateUserRequest.t) (r : R) :
  handler.Payload (fst (handler.CreateUser nowV now create r))
  ≠ handler.JSONError "invalid date format (Use YYYY-MM-DD)"
  ∧ handler.Payload (fst (handler.UpdateUser nowV now id update r))
    ≠ handler.JSONError "invalid data format (use YYYY-MM-DD)".
Proof.
  split.
  - destruct create as [req|]; [|cbn; discriminate].
    unfold handler.CreateUser.
    destruct (validator.ValidateStruct _) as [[msg]|] eqn:Hv.
    + rewrite ValidateStruct_create in Hv.
      apply validation_message_not_parse_message in Hv as [Hne _].
      cbn. congruence.
    + rewrite ValidateStruct_create in Hv.
      apply accepted_dob in Hv as [_ (dob & -> & _)].
      handler_cases; cbn; discriminate.
  - destruct id as [id|]; [|cbn; discriminate].
    destruct update as [req|]; [|cbn; discriminate].
    unfold handler.UpdateUser.
    destruct (validator.ValidateStruct _) as [[msg]|] eqn:Hv.
    + rewrite ValidateStruct_update in Hv.
      apply validation_message_not_parse_message in Hv as [_ Hne].
      cbn. congruence.
    + rewrite ValidateStruct_update in Hv.
      apply accepted_dob in Hv as [_ (dob & -> & _)].
      handler_cases; cbn; discriminate.
Qed.

End AnyRepository.

(** ** What the validator accepts *)

Lemma name_violation_nil name :
  name_violation name = [] ↔
  name ≠ "" ∧ (utf8.RuneCountInString name <= 255)%nat.
Proof.
  unfold name_violation.
  destruct (String.eqb_spec name ""); [split; [discriminate | tauto]|].
  destruct (Nat.ltb_spec 255 (utf8.RuneCountInString name)).
  - split; [discriminate | lia].
  - split; [split; [assumption | lia] | reflexivity].
Qed.

Lemma dob_violation_nil now dob :
  dob_violation now dob = [] ↔ ∃ d, Parse dob = Some d ∧ Before d now = true.
Proof.
  unfold dob_violation. destruct (String.eqb_spec dob "") as [->|_].
  - split; [discriminate | intros (d & [=] & _)].
  - destruct (Parse dob) as [d|]; [|split; [discriminate | intros (d & [=] & _)]].
    destruct (Before d now) eqn:HB.
    + split; [eauto | reflexivity].
    + split; [discriminate | intros (d' & [= <-] & HB'); congruence].
Qed.

Lemma report_first_violations_None now name dob :
  report (first_violations now name dob) = None ↔
  name ≠ "" ∧ (utf8.RuneCountInString name <= 255)%nat
  ∧ ∃ d, Parse dob = Some d ∧ Before d now = true.
Proof.
  unfold first_violations. split.
  - intros H%report_None. apply app_eq_nil in H as [Hn Hd].
    apply name_violation_nil in Hn as [? ?].
    apply dob_violation_nil in Hd. tauto.
  - intros (Hne & Hlen & Hd).
    apply dob_violation_nil in Hd as ->.
    assert (name_violation name = []) as ->; [|reflexivity].
    apply name_violation_nil. tauto.
Qed.

(** X10: a create or update request passes validation exactly when its
    name is not empty and has at most 255 runes, and its date of birth
    parses under YYYY-MM-DD to a date whose midnight is before the current
    instant. *)
Theorem ValidateStruct_accepts_iff (now : Time) (name dob : string) :
  (validator.ValidateStruct
     (CreateUserRequest.fields now
        {| CreateUserRequest.Name := name; CreateUserRequest.DOB := dob |})
   = None ↔
   name ≠ "" ∧ (utf8.RuneCountInString name <= 255)%nat
   ∧ ∃ d, Parse dob = Some d ∧ Before d now = true)
  ∧ (validator.ValidateStruct
       (UpdateUserRequest.fields now
          {| UpdateUserRequest.Name := name; UpdateUserRequest.DOB := dob |})
     = None ↔
     name ≠ "" ∧ (utf8.RuneCountInString name <= 255)%nat
     ∧ ∃ d, Parse dob = Some d ∧ Before d now = true).
Proof.
  rewrite ValidateStruct_create, ValidateStruct_update.
  split; apply report_first_violations_None.
Qed.

Lemma countFrom_le_length s : ∀ skip,
  (utf8.countFrom skip s <= String.length s)%nat.
Proof.
  induction s as [|c s IH]; intros skip; [cbn; lia|].
  destruct skip as [|k]; cbn [utf8.countFrom String.length].
  - specialize (IH (utf8.runeSize c s - 1)%nat). lia.
  - specialize (IH k). lia.
Qed.

Lemma runeSize_le_4 c s : (1 <= utf8.runeSize c s <= 4)%nat.
Proof.
  unfold utf8.runeSize.
  destruct (utf8.first _) as [[size [lo hi]]|]; [|lia].
  repeat match goal with
         | |- context [if ?b then _ else _] => destruct b
         end; lia.
Qed.

Lemma length_le_countFrom s : ∀ skip,
  (skip <= 3)%nat →
  (String.length s <= skip + 4 * utf8.countFrom skip s)%nat.
Proof.
  induction s as [|c s IH]; intros skip Hskip; [cbn; lia|].
  destruct skip as [|k]; cbn [utf8.countFrom String.length].
  - pose proof (runeSize_le_4 c s).
    specialize (IH (utf8.runeSize c s - 1)%nat ltac:(lia)). lia.
  - specialize (IH k ltac:(lia)). lia.
Qed.

(** X11: the length rules of the name count runes, and a rune takes one to
    four bytes.  With a date of birth that is accepted, every name of 1 to
    255 bytes passes validation, and every name of more than 1020 bytes is
    rejected as too long. *)
Theorem name_length_in_bytes (now : Time) (name dob : string) (d : Time) :
  Parse dob = Some d →
  Before d now = true →
  (utf8.RuneCountInString name <= String.length name
   <= 4 * utf8.RuneCountInString name)%nat
  ∧ ((1 <= String.length name <= 255)%nat →
     validator.ValidateStruct
       (CreateUserRequest.fields now
          {| CreateUserRequest.Name := name; CreateUserRequest.DOB := dob |})
     = None)
  ∧ ((1020 < String.length name)%nat →
     validator.ValidateStruct
       (CreateUserRequest.fields now
          {| CreateUserRequest.Name := name; CreateUserRequest.DOB := dob |})
     = Some (errorsNew "Name must be at most 255 characters")).
Proof.
  intros HP HB.
  pose proof (countFrom_le_length name 0) as Hle.
  pose proof (length_le_countFrom name 0 ltac:(lia)) as Hge.
  fold (utf8.RuneCountInString name) in Hle, Hge.
  split; [lia|]. rewrite ValidateStruct_create.
  cbn [CreateUserRequest.Name CreateUserRequest.DOB].
  assert (dob_violation now dob = []) as Hdob
    by (apply dob_violation_nil; eauto).
  unfold first_violations. rewrite Hdob, app_nil_r. split.
  - intros Hlen.
    assert (name_violation name = []) as ->; [|reflexivity].
    apply name_violation_nil. split; [|lia].
    intros ->. cbn in Hlen. lia.
  - intros Hlen. unfold name_violation.
    destruct name as [|c s]; [cbn in Hlen; lia|].
    change (String.eqb (String c s) "") with false. cbn match.
    destruct (Nat.ltb_spec 255 (utf8.RuneCountInString (String c s)));
      [reflexivity | lia].
Qed.

Lemma name_length_in_bytes_witness :
  validator.ValidateStruct
    (CreateUserRequest.fields (Date 2026 10 30 0)
       {| CreateUserRequest.Name := "John Doe";
          CreateUserRequest.DOB := "1990-05-15" |})
  = None.
Proof.
  apply (proj1 (proj2
    (name_length_in_bytes (Date 2026 10 30 0) "John Doe" "1990-05-15"
       (Date 1990 5 15 0) eq_refl eq_refl))).
  simpl. lia.
Defined.

(** ** More on the age *)


(** X12: the age is negative exactly for a date of birth after the current
    date: zero or more whenever the date of birth is the current date or
    earlier. *)
Theorem calculateAge_nonneg_iff (now dob : Time) :
  0 <= service.calculateAge now dob ↔ date_le dob now.
Proof.
  unfold service.calculateAge, date_le, date_lt, same_date.
  destruct ((Month now <? Month dob)
            || ((Month now =? Month dob) && (Day now <? Day dob))) eqn:E; lia.
Qed.

(** X13: the age never goes down as the current date moves on, and a later
    date of birth never gives a higher age. *)
Theorem calculateAge_monotone (now now' dob dob' : Time) :
  (date_le now now' →
   service.calculateAge now dob <= service.calculateAge now' dob)
  ∧ (date_le dob dob' →
     service.calculateAge now dob' <= service.calculateAge now dob).
Proof.
  unfold service.calculateAge, date_le, date_lt, same_date. split; intros Hle.
  - destruct ((Month now <? Month dob)
              || ((Month now =? Month dob) && (Day now <? Day dob))) eqn:E;
      destruct ((Month now' <? Month dob)
                || ((Month now' =? Month dob) && (Day now' <? Day dob))) eqn:E';
      lia.
  - destruct ((Month now <? Month dob)
              || ((Month now =? Month dob) && (Day now <? Day dob))) eqn:E;
      destruct ((Month now <? Month dob')
                || ((Month now =? Month dob') && (Day now <? Day dob'))) eqn:E';
      lia.
Qed.

Lemma calculateAge_monotone_witness :
  service.calculateAge (Date 2026 10 30 0) (Date 1990 11 2 0)
  <= service.calculateAge (Date 2026 11 2 0) (Date 1990 11 2 0).
Proof.
  apply (proj1 (calculateAge_monotone (Date 2026 10 30 0) (Date 2026 11 2 0)
                  (Date 1990 11 2 0) (Date 1990 11 2 0))).
  unfold date_le, date_lt. simpl. lia.
Defined.



(** ** Dates as text *)

Section DateText.

Import timeext.

Ltac dlia := Z.div_mod_to_equations; lia.

Lemma digitChar_digit c :
  isDigit c = true → digitChar (digit c) = c ∧ 0 <= digit c <= 9.
Proof.
  unfold isDigit, digitChar, digit. intros H.
  apply andb_true_iff in H as [H1%Nat.leb_le H2%Nat.leb_le].
  split; [|lia].
  replace (48 + Z.to_nat (Z.of_nat (nat_of_ascii c) - 48))%nat
    with (nat_of_ascii c) by dlia.
  apply ascii_nat_embedding.
Qed.

Lemma digit_digitChar k :
  0 <= k <= 9 → isDigit (digitChar k) = true ∧ digit (digitChar k) = k.
Proof.
  intros Hk. unfold isDigit, digit, digitChar.
  rewrite nat_ascii_embedding by dlia.
  split; [|lia].
  apply andb_true_iff. split; apply Nat.leb_le; lia.
Qed.

Lemma utoa_small f u acc :
  0 <= u < 10000 →
  utoa (S (S (S (S f)))) u acc
  = if u <? 10 then String (digitChar u) acc
    else if u <? 100
    then String (digitChar (u / 10)) (String (digitChar (u mod 10)) acc)
    else if u <? 1000
    then String (digitChar (u / 100))
           (String (digitChar (u / 10 mod 10))
              (String (digitChar (u mod 10)) acc))
    else String (digitChar (u / 1000))
           (String (digitChar (u / 100 mod 10))
              (String (digitChar (u / 10 mod 10))
                 (String (digitChar (u mod 10)) acc))).
Proof.
  intros Hu. cbn [utoa].
  replace (u / 10 / 10) with (u / 100) by dlia.
  replace (u / 100 / 10) with (u / 1000) by dlia.
  destruct (Z.ltb_spec u 10); [reflexivity|].
  destruct (Z.ltb_spec (u / 10) 10), (Z.ltb_spec u 100); try dlia;
    [reflexivity|].
  destruct (Z.ltb_spec (u / 100) 10), (Z.ltb_spec u 1000); try dlia;
    [reflexivity|].
  destruct (Z.ltb_spec (u / 1000) 10); [reflexivity | dlia].
Qed.

Lemma appendInt_4 y :
  0 <= y <= 9999 →
  appendInt y 4
  = String (digitChar (y / 1000))
      (String (digitChar (y / 100 mod 10))
         (String (digitChar (y / 10 mod 10))
            (String (digitChar (y mod 10)) ""))).
Proof.
  intros Hy. unfold appendInt.
  rewrite Z.abs_eq by dlia. replace (y <? 0) with false by dlia.
  rewrite utoa_small by dlia.
  destruct (Z.ltb_spec y 10).
  { replace (y / 1000) with 0 by dlia. replace (y / 100) with 0 by dlia.
    replace (y / 10) with 0 by dlia. replace (y mod 10) with y by dlia.
    reflexivity. }
  destruct (Z.ltb_spec y 100).
  { replace (y / 1000) with 0 by dlia. replace (y / 100) with 0 by dlia.
    replace (y / 10 mod 10) with (y / 10) by dlia. reflexivity. }
  destruct (Z.ltb_spec y 1000).
  { replace (y / 1000) with 0 by dlia.
    replace (y / 100 mod 10) with (y / 100) by dlia. reflexivity. }
  reflexivity.
Qed.

Lemma appendInt_2 x :
  0 <= x <= 99 →
  appendInt x 2
  = String (digitChar (x / 10)) (String (digitChar (x mod 10)) "").
Proof.
  intros Hx. unfold appendInt.
  rewrite Z.abs_eq by dlia. replace (x <? 0) with false by dlia.
  rewrite utoa_small by dlia.
  destruct (Z.ltb_spec x 10).
  { replace (x / 10) with 0 by dlia. replace (x mod 10) with x by dlia.
    reflexivity. }
  destruct (Z.ltb_spec x 100); [reflexivity | dlia].
Qed.

Lemma daysIn_bounds m y : 28 <= daysIn m y <= 31.
Proof.
  unfold daysIn.
  repeat match goal with
         | |- context [if ?b then _ else _] => destruct b
         end; lia.
Qed.

Lemma Format_digits t :
  0 <= Year t <= 9999 → 1 <= Month t <= 12 → 1 <= Day t <= 31 →
  Format t
  = String (digitChar (Year t / 1000))
      (String (digitChar (Year t / 100 mod 10))
         (String (digitChar (Year t / 10 mod 10))
            (String (digitChar (Year t mod 10))
               (String "-"
                  (String (digitChar (Month t / 10))
                     (String (digitChar (Month t mod 10))
                        (String "-"
                           (String (digitChar (Day t / 10))
                              (String (digitChar (Day t mod 10)) ""))))))))).
Proof.
  intros Hy Hm Hd. unfold Format.
  rewrite appendInt_4, !appendInt_2 by dlia. reflexivity.
Qed.

Lemma Parse_Format t :
  0 <= Year t <= 9999 → 1 <= Month t <= 12 →
  1 <= Day t <= daysIn (Month t) (Year t) →
  Parse (Format t) = Some (Date (Year t) (Month t) (Day t) 0).
Proof.
  intros Hy Hm Hd. pose proof (daysIn_bounds (Month t) (Year t)).
  rewrite Format_digits by dlia.
  unfold Parse, getyear, getnum, skip.
  repeat first
    [ match goal with
      | |- context [isDigit (digitChar ?k)] =>
          rewrite (proj1 (digit_digitChar k ltac:(dlia)))
      | |- context [digit (digitChar ?k)] =>
          rewrite (proj2 (digit_digitChar k ltac:(dlia)))
      end
    | progress cbn [andb mbind option_bind Ascii.eqb Bool.eqb] ].
  replace (((Year t / 1000 * 10 + Year t / 100 mod 10) * 10
            + Year t / 10 mod 10) * 10 + Year t mod 10)
    with (Year t) by dlia.
  replace (Month t / 10 * 10 + Month t mod 10) with (Month t) by dlia.
  replace (Day t / 10 * 10 + Day t mod 10) with (Day t) by dlia.
  replace ((Month t <=? 0) || (12 <? Month t)) with false by dlia.
  replace ((Day t <? 1) || (daysIn (Month t) (Year t) <? Day t))
    with false by dlia.
  reflexivity.
Qed.

Lemma Format_Parse s d :
  Parse s = Some d →
  Format d = s
  ∧ 0 <= Year d <= 9999 ∧ 1 <= Month d <= 12
  ∧ 1 <= Day d <= daysIn (Month d) (Year d) ∧ Nanosecond d = 0.
Proof.
  unfold Parse, getyear, getnum, skip. intros H.
  destruct s as [|y1 [|y2 [|y3 [|y4 s]]]]; try discriminate.
  destruct (isDigit y1) eqn:Hy1; [|discriminate].
  destruct (isDigit y2) eqn:Hy2; [|discriminate].
  destruct (isDigit y3) eqn:Hy3; [|discriminate].
  destruct (isDigit y4) eqn:Hy4; [|discriminate].
  cbn [andb mbind option_bind] in H.
  destruct s as [|c1 s]; [discriminate|].
  destruct (Ascii.eqb_spec c1 "-") as [->|]; [|discriminate].
  cbn [mbind option_bind] in H.
  destruct s as [|m1 [|m2 s]]; try discriminate.
  destruct (isDigit m1) eqn:Hm1; [|discriminate].
  destruct (isDigit m2) eqn:Hm2; [|discriminate].
  cbn [andb mbind option_bind] in H.
  destruct s as [|c2 s]; [discriminate|].
  destruct (Ascii.eqb_spec c2 "-") as [->|]; [|discriminate].
  cbn [mbind option_bind] in H.
  destruct s as [|d1 [|d2 s]]; try discriminate.
  destruct (isDigit d1) eqn:Hd1; [|discriminate].
  destruct (isDigit d2) eqn:Hd2; [|discriminate].
  cbn [andb mbind option_bind] in H.
  destruct s; [|discriminate].
  destruct (_ || _) eqn:Hmonth in H; [discriminate|].
  destruct (_ || _) eqn:Hday in H; [discriminate|].
  injection H as <-.
  apply digitChar_digit in Hy1 as [Ey1 ?], Hy2 as [Ey2 ?], Hy3 as [Ey3 ?],
    Hy4 as [Ey4 ?], Hm1 as [Em1 ?], Hm2 as [Em2 ?], Hd1 as [Ed1 ?],
    Hd2 as [Ed2 ?].
  cbn [Year Month Day Nanosecond].
  set (y := ((digit y1 * 10 + digit y2) * 10 + digit y3) * 10 + digit y4) in *.
  set (m := digit m1 * 10 + digit m2) in *.
  set (dd := digit d1 * 10 + digit d2) in *.
  pose proof (daysIn_bounds m y).
  assert (0 <= y <= 9999) by (subst y; dlia).
  assert (1 <= m <= 12) by dlia.
  assert (1 <= dd <= daysIn m y) by dlia.
  split; [|repeat split; lia].
  rewrite Format_digits by (cbn [Year Month Day]; lia).
  cbn [Year Month Day].
  replace (y / 1000) with (digit y1) by (subst y; dlia).
  replace (y / 100 mod 10) with (digit y2) by (subst y; dlia).
  replace (y / 10 mod 10) with (digit y3) by (subst y; dlia).
  replace (y mod 10) with (digit y4) by (subst y; dlia).
  replace (m / 10) with (digit m1) by (subst m; dlia).
  replace (m mod 10) with (digit m2) by (subst m; dlia).
  replace (dd / 10) with (digit d1) by (subst dd; dlia).
  replace (dd mod 10) with (digit d2) by (subst dd; dlia).
  rewrite Ey1, Ey2, Ey3, Ey4, Em1, Em2, Ed1, Ed2. reflexivity.
Qed.

(** X15: [validateDateFormat] holds exactly for the texts that are the
    YYYY-MM-DD rendering, as [Format] writes it, of a calendar date of the
    years 0 to 9999: four digits, two digits and two digits that name a day
    that exists, leap years counted. *)
Theorem validateDateFormat_iff (s param : string) :
  validator.validateDateFormat
    {| playground.flField := s; playground.flParam := param |} = true
  ↔ ∃ year month day,
      0 <= year <= 9999 ∧ 1 <= month <= 12 ∧ 1 <= day <= daysIn month year
      ∧ s = Format (Date year month day 0).
Proof.
  unfold validator.validateDateFormat. cbn [playground.flField]. split.
  - destruct (Parse s) as [d|] eqn:HP; [intros _ | discriminate].
    apply Format_Parse in HP as (HF & Hy & Hm & Hd & Hn).
    exists (Year d), (Month d), (Day d).
    repeat (split; [assumption|]). rewrite <- HF.
    unfold Format. reflexivity.
  - intros (year & month & day & Hy & Hm & Hd & ->).
    rewrite Parse_Format by (cbn [Year Month Day]; assumption).
    reflexivity.
Qed.

End DateText.

(** ** Dates built from parts *)

Section DateParts.

Import timeext.

Ltac dlia := Z.div_mod_to_equations; lia.

Lemma rollDay_once f y m d :
  1 <= d <= 31 →
  rollDay (S (S f)) y m d
  = if daysIn m y <? d
    then (fst (nextMonth y m), snd (nextMonth y m), d - daysIn m y)
    else (y, m, d).
Proof.
  intros Hd. cbn [rollDay]. replace (d <? 1) with false by lia.
  destruct (Z.ltb_spec (daysIn m y) d); [|reflexivity].
  destruct (nextMonth y m) as [y' m']. cbn [fst snd].
  pose proof (daysIn_bounds m y). pose proof (daysIn_bounds m' y').
  replace (d - daysIn m y <? 1) with false by lia.
  replace (daysIn m' y' <? d - daysIn m y) with false by lia.
  reflexivity.
Qed.

(** [time.Date] on a month of the year and a day from 1 to 31: the date
    itself when the month has the day, else the day carried into the next
    month. *)
Lemma DateOf_in_year y m d ns :
  1 <= m <= 12 → 1 <= d <= 31 → 0 <= ns < nanosPerDay →
  DateOf y m d ns
  = if daysIn m y <? d
    then Date (fst (nextMonth y m)) (snd (nextMonth y m)) (d - daysIn m y) ns
    else Date y m d ns.
Proof.
  intros Hm Hd Hns. unfold DateOf, norm.
  replace ((m - 1) / 12) with 0 by dlia.
  replace ((m - 1) mod 12 + 1) with m by dlia.
  replace (ns / nanosPerDay) with 0 by (unfold nanosPerDay in *; dlia).
  replace (ns mod nanosPerDay) with ns by (unfold nanosPerDay in *; dlia).
  rewrite !Z.add_0_r.
  destruct (Z.to_nat (Z.abs d)) as [|f] eqn:Hf; [lia|].
  rewrite rollDay_once by lia.
  destruct (daysIn m y <? d); reflexivity.
Qed.

Lemma DateOf_valid t :
  valid t → DateOf (Year t) (Month t) (Day t) (Nanosecond t) = t.
Proof.
  intros (Hm & Hd & Hns). pose proof (daysIn_bounds (Month t) (Year t)).
  rewrite DateOf_in_year by lia.
  replace (daysIn (Month t) (Year t) <? Day t) with false by lia.
  destruct t; reflexivity.
Qed.

Lemma DateOf_month_13 y d ns : DateOf y 13 d ns = DateOf (y + 1) 1 d ns.
Proof. unfold DateOf, norm. cbn. rewrite Z.add_0_r. reflexivity. Qed.

Lemma DateOf_month_0 y d ns : DateOf y 0 d ns = DateOf (y - 1) 12 d ns.
Proof.
  unfold DateOf, norm. cbn. rewrite Z.add_0_r.
  replace (y + -1) with (y - 1) by lia. reflexivity.
Qed.

End DateParts.

(** ** The age tests of the test program *)

Section AgeTests.

Import timeext agetests.

Ltac dlia := Z.div_mod_to_equations; lia.

(** Case analysis on every test of an [if] in the goal. *)
Ltac split_ifs :=
  repeat match goal with
         | |- context [if ?c then _ else _] =>
             let E := fresh "E" in destruct c eqn:E;
             cbn [fst snd Year Month Day Nanosecond] in *
         end.

Lemma passes_born_today name now :
  passes now {| Name := name; DOB := now; Expected := 0 |} = true.
Proof.
  unfold passes, cmd_test.calculateAge. cbn [DOB Expected]. split_ifs; lia.
Qed.

Lemma passes_fixed_date name now Y M D :
  passes now {| Name := name; DOB := Date Y M D 0; Expected := Year now - Y |}
  = negb ((Month now <? M) || ((Month now =? M) && (Day now <? D))).
Proof.
  unfold passes, cmd_test.calculateAge.
  cbn [DOB Expected Year Month Day]. split_ifs; lia.
Qed.

Lemma daysIn_not_feb m y y' : m ≠ 2 → daysIn m y = daysIn m y'.
Proof.
  intros Hm. unfold daysIn. replace (m =? 2) with false by lia. reflexivity.
Qed.

Lemma daysIn_feb y : daysIn 2 y = if isLeap y then 29 else 28.
Proof. reflexivity. Qed.

Lemma passes_years_ago name now (back k : Z) :
  valid now → (back = -1 ∧ k = 1) ∨ (back = -30 ∧ k = 30) →
  passes now {| Name := name; DOB := AddDate now back 0 0; Expected := k |}
  = negb ((Month now =? 2) && (Day now =? 29)).
Proof.
  destruct now as [y m d ns]. unfold valid.
  cbn [Year Month Day Nanosecond]. intros (Hm & Hd & Hns) Hk.
  pose proof (daysIn_bounds m y) as Hb.
  unfold passes, cmd_test.calculateAge, AddDate.
  cbn [DOB Expected Year Month Day Nanosecond]. rewrite !Z.add_0_r.
  rewrite DateOf_in_year by lia.
  destruct (Z.eq_dec m 2) as [->|Hne].
  - rewrite daysIn_feb in *. change (nextMonth (y + back) 2) with (y + back, 3).
    cbn [fst snd].
    destruct (isLeap y) eqn:Ey, (isLeap (y + back)) eqn:Ek;
      split_ifs; unfold isLeap in *; dlia.
  - rewrite (daysIn_not_feb m (y + back) y Hne).
    replace (daysIn m y <? d) with false by lia.
    cbn [Year Month Day]. split_ifs; lia.
Qed.

Ltac month_numerals :=
  repeat match goal with
         | |- context [DateOf _ (Z.pos ?p + 1) _ _] =>
             let v := eval compute in (Z.pos p + 1) in
             change (Z.pos p + 1) with v
         | |- context [DateOf _ (Z.pos ?p - 1) _ _] =>
             let v := eval compute in (Z.pos p - 1) in
             change (Z.pos p - 1) with v
         end;
  rewrite ?DateOf_month_13, ?DateOf_month_0;
  rewrite ?DateOf_in_year by (unfold nanosPerDay in *; lia);
  repeat match goal with
         | |- context [nextMonth ?Y (Z.pos ?p)] =>
             let v := eval cbv [nextMonth Z.eqb Pos.eqb] in
                        (nextMonth Y (Z.pos p)) in
             change (nextMonth Y (Z.pos p)) with v
         | |- context [daysIn (Z.pos ?p) ?Y] =>
             first [ change (daysIn (Z.pos p) Y) with 31
                   | change (daysIn (Z.pos p) Y) with 30
                   | change (daysIn (Z.pos p) Y)
                       with (if isLeap Y then 29 else 28) ]
         end;
  cbn [fst snd].

Lemma passes_around_birthday name name' now :
  valid now →
  passes now {| Name := name;
                DOB := DateOf (Year now - 25) (Month now + 1) (Day now) 0;
                Expected := 24 |} = true
  ∧ passes now {| Name := name';
                  DOB := DateOf (Year now - 25) (Month now - 1) (Day now) 0;
                  Expected := 25 |} = true.
Proof.
  destruct now as [y m d ns]. unfold valid.
  cbn [Year Month Day Nanosecond]. intros (Hm & Hd & Hns).
  pose proof (daysIn_bounds m y) as Hb.
  assert (1 <= d <= 31) as Hd31 by lia.
  assert (m = 1 ∨ m = 2 ∨ m = 3 ∨ m = 4 ∨ m = 5 ∨ m = 6 ∨ m = 7 ∨ m = 8
          ∨ m = 9 ∨ m = 10 ∨ m = 11 ∨ m = 12) as Hcases by lia.
  unfold passes, cmd_test.calculateAge.
  cbn [DOB Expected Year Month Day Nanosecond].
  clear Hb.
  repeat (destruct Hcases as [->|Hcases]); try subst m;
    (split; month_numerals; revert Hd;
     repeat match goal with
            | |- context [daysIn (Z.pos ?p) ?Y] =>
                first [ change (daysIn (Z.pos p) Y) with 31
                      | change (daysIn (Z.pos p) Y) with 30
                      | change (daysIn (Z.pos p) Y)
                          with (if isLeap Y then 29 else 28) ]
            end;
     repeat match goal with
            | |- context [isLeap ?x] =>
                let E := fresh "E" in destruct (isLeap x) eqn:E
            end;
     intros Hd; split_ifs; lia).
Qed.

(** X16: which of the seven age tests pass on a given day.  "Born today",
    "before birthday" and "after birthday" always pass; "1 year ago" and "30
    years ago" fail on February 29 alone; "born in leap year" (1996-02-29)
    fails from January 1 to February 28 and "Classic DOB" (1990-05-15) from
    January 1 to May 14.  So the run reports no failure exactly from May 15
    to December 31. *)
Theorem age_tests_outcome (now : Time) :
  valid now →
  map (passes now) (tests now)
  = [ true;
      negb ((Month now =? 2) && (Day now =? 29));
      negb ((Month now =? 2) && (Day now =? 29));
      true;
      true;
      negb ((Month now <? 2) || ((Month now =? 2) && (Day now <? 29)));
      negb ((Month now <? 5) || ((Month now =? 5) && (Day now <? 15))) ]
  ∧ (snd (RunAgeCalculationTests now) = 0 ↔
     5 < Month now ∨ (Month now = 5 ∧ 15 <= Day now))
  ∧ fst (RunAgeCalculationTests now) + snd (RunAgeCalculationTests now) = 7.
Proof.
  intros Hvalid.
  assert (map (passes now) (tests now)
          = [ true;
              negb ((Month now =? 2) && (Day now =? 29));
              negb ((Month now =? 2) && (Day now =? 29));
              true;
              true;
              negb ((Month now <? 2) || ((Month now =? 2) && (Day now <? 29)));
              negb ((Month now <? 5) || ((Month now =? 5) && (Day now <? 15))) ])
    as Hmap.
  { unfold tests. cbn [map].
    rewrite passes_born_today.
    rewrite (passes_years_ago _ now (-1) 1), (passes_years_ago _ now (-30) 30)
      by (auto; lia).
    rewrite (proj1 (passes_around_birthday
                      "Person born before birthday this year"
                      "Person born after birthday this year" now Hvalid)).
    rewrite (proj2 (passes_around_birthday
                      "Person born before birthday this year"
                      "Person born after birthday this year" now Hvalid)).
    change (DateOf 1996 2 29 0) with (Date 1996 2 29 0).
    change (DateOf 1990 5 15 0) with (Date 1990 5 15 0).
    rewrite !passes_fixed_date. reflexivity. }
  split; [exact Hmap|].
  assert (∀ l p f,
            fold_left
              (λ '(passed, failed) test,
                 if passes now test then (passed + 1, failed)
                 else (passed, failed + 1)) l (p, f)
            = (p + Z.of_nat (length (List.filter id (map (passes now) l))),
               f + Z.of_nat (length (List.filter negb (map (passes now) l)))))
    as Hfold.
  { induction l as [|test l IH]; intros p f; cbn [fold_left map List.filter].
    - cbn [length]. f_equal; lia.
    - destruct (passes now test) eqn:E; rewrite IH; cbn [id negb length];
        f_equal; lia. }
  unfold RunAgeCalculationTests. rewrite Hfold, Hmap. cbn [fst snd].
  destruct ((Month now =? 2) && (Day now =? 29)) eqn:E1;
    destruct ((Month now <? 2) || ((Month now =? 2) && (Day now <? 29))) eqn:E2;
    destruct ((Month now <? 5) || ((Month now =? 5) && (Day now <? 15))) eqn:E3;
    cbn [List.filter id negb length]; split; lia.
Qed.

End AgeTests.

Lemma age_tests_outcome_witness :
  snd (agetests.RunAgeCalculationTests (Date 2026 5 14 0)) = 0 ↔
  5 < 5 ∨ (5 = 5 ∧ 15 <= 14).
Proof.
  refine (proj1 (proj2 (age_tests_outcome (Date 2026 5 14 0) _))).
  unfold timeext.valid, timeext.nanosPerDay. cbn. lia.
Defined.

(** ** The system test runner *)

Section Runner.

Import test runner.

Variable parseError : string → error.

Ltac run_service :=
  unfold service.GetUser, service.CreateUser, service.UpdateUser,
    service.DeleteUser;
  cbn [repository.GetUser repository.CreateUser repository.UpdateUser
       repository.DeleteUser Mock_UserRepository];
  unfold GetUser, CreateUser, UpdateUser, DeleteUser.

(** [RunDatabaseErrorTest] always succeeds with the error "mock database
    error"; it changes neither the users nor the counter, and it leaves the
    failure flag off even when the flag was on before. *)
Lemma RunDatabaseErrorTest_outcome (now : Time) (r : MockUserRepository) :
  RunDatabaseErrorTest now r
  = ({| Success := true;
        Message := "Database error handled correctly";
        Data := NoData;
        Error := Some (errorsNew "mock database error") |},
     {| users := users r; nextID := nextID r; shouldFail := false |}).
Proof. reflexivity. Qed.

(** X17: when the runner's create and update tests succeed.  A create test
    succeeds exactly when the request passes validation and the store is not
    set to fail; an update test needs the id to be stored as well.  Neither
    ever reports "Date parsing failed", a test that does not succeed leaves
    the store as it was, and the validation test succeeds exactly when the
    request fails validation. *)
Theorem runner_outcomes
  (nowV now : Time) (id : Z) (name dob : string) (r : MockUserRepository) :
  let create := RunCreateUserTest parseError nowV now name dob r in
  let update := RunUpdateUserTest parseError nowV now id name dob r in
  let accepted :=
    validator.ValidateStruct
      (CreateUserRequest.fields nowV
         {| CreateUserRequest.Name := name; CreateUserRequest.DOB := dob |})
    = None in
  (Success (fst create) = true ↔ accepted ∧ shouldFail r = false)
  ∧ (Success (fst update) = true ↔
     accepted ∧ shouldFail r = false ∧ is_Some (users r !! id))
  ∧ Message (fst create) ≠ "Date parsing failed"
  ∧ Message (fst update) ≠ "Date parsing failed"
  ∧ (Success (fst create) = false → snd create = r)
  ∧ (Success (fst update) = false → snd update = r)
  ∧ (Success (RunValidationErrorTest nowV name dob) = true ↔ ¬ accepted).
Proof.
  cbv zeta. unfold RunCreateUserTest, RunUpdateUserTest, RunValidationErrorTest.
  rewrite ValidateStruct_create, ValidateStruct_update.
  cbn [CreateUserRequest.Name CreateUserRequest.DOB
       UpdateUserRequest.Name UpdateUserRequest.DOB].
  destruct (report (first_violations nowV name dob)) as [err|] eqn:Hv.
  { cbn. repeat split; try discriminate; try tauto; intros [? ?]; discriminate. }
  apply accepted_dob in Hv as [_ (d & -> & _)]. run_service.
  cbn [UpdateUserParams.ID].
  destruct (shouldFail r) eqn:Hfail.
  { cbn. repeat split; try discriminate; try tauto;
      intros; try tauto; try (destruct_and?; discriminate); exfalso; tauto. }
  destruct (users r !! id) as [old|] eqn:Hold.
  - cbn. repeat split; try discriminate; try tauto; eauto.
  - cbn. repeat split; try discriminate; try tauto; eauto.
    intros (_ & _ & [? [=]]).
Qed.

End Runner.

(** ** The system tests of the test program *)

Section SystemTests.

Import timeext test runner systemtests.

Lemma Before_earlier_year d now : Year d < Year now → Before d now = true.
Proof. unfold Before. lia. Qed.

Lemma Before_later_year d now : Year now < Year d → Before d now = false.
Proof. unfold Before. lia. Qed.

Lemma dob_violation_past now dob d :
  Parse dob = Some d → Year d < Year now → dob_violation now dob = [].
Proof.
  intros HP Hy. apply dob_violation_nil. exists d.
  split; [exact HP | apply Before_earlier_year, Hy].
Qed.

(** One year from now, as the test of the future date writes it: a date of
    next year that parses back. *)
Lemma next_year_text now :
  valid now → 0 <= Year now <= 9998 →
  ∃ d, Parse (Format (AddDate now 1 0 0)) = Some d ∧ Year d = Year now + 1.
Proof.
  destruct now as [y m d ns]. unfold valid, AddDate.
  cbn [Year Month Day Nanosecond]. intros (Hm & Hd & Hns) Hy.
  pose proof (daysIn_bounds m y) as Hb.
  pose proof (daysIn_bounds m (y + 1)) as Hb'.
  rewrite !Z.add_0_r, DateOf_in_year by lia.
  destruct (Z.ltb_spec (daysIn m (y + 1)) d) as [Hroll|Hstay].
  - assert (m = 2) as ->.
    { destruct (Z.eq_dec m 2) as [|Hne]; [assumption|].
      rewrite (daysIn_not_feb m (y + 1) y Hne) in Hroll. lia. }
    change (nextMonth (y + 1) 2) with (y + 1, 3). cbn [fst snd].
    exists (Date (y + 1) 3 (d - daysIn 2 (y + 1)) 0). split; [|reflexivity].
    rewrite Parse_Format; cbn [Year Month Day]; [reflexivity | lia | lia |].
    change (daysIn 3 (y + 1)) with 31. lia.
  - exists (Date (y + 1) m d 0). split; [|reflexivity].
    rewrite Parse_Format; cbn [Year Month Day]; [reflexivity | lia..].
Qed.

Lemma dob_violation_next_year now :
  valid now → 0 <= Year now <= 9998 →
  dob_violation now (Format (AddDate now 1 0 0))
  = ["DOB cannot be in the future"].
Proof.
  intros Hvalid Hy. destruct (next_year_text now Hvalid Hy) as (d & HP & Hd).
  apply (dob_violation_future _ _ d); [exact HP|].
  apply Before_later_year. lia.
Qed.

(** X18: the fourteen system tests of the test program all pass, on every
    day from 1993 to 9998 and whatever the order in which the repository
    lists its users: the summary counts 14 passed and 0 failed. *)
Theorem system_tests_pass (parseError : string → error) (now : Time)
  (entries : list (Z * User.t)) :
  valid now →
  1993 <= Year now <= 9998 →
  main parseError now entries = (14, 0).
Proof.
  intros Hvalid Hy.
  unfold main, RunCreateUserTest, RunUpdateUserTest, RunValidationErrorTest.
  cbv zeta.
  rewrite !ValidateStruct_create, !ValidateStruct_update.
  cbn [CreateUserRequest.Name CreateUserRequest.DOB
       UpdateUserRequest.Name UpdateUserRequest.DOB].
  unfold first_violations.
  rewrite (dob_violation_next_year now Hvalid) by lia.
  rewrite (dob_violation_past now "1990-05-15" (Date 1990 5 15 0) eq_refl)
    by (cbn; lia).
  rewrite (dob_violation_past now "1992-08-22" (Date 1992 8 22 0) eq_refl)
    by (cbn; lia).
  rewrite (dob_violation_past now "1990-05-20" (Date 1990 5 20 0) eq_refl)
    by (cbn; lia).
  rewrite (dob_violation_past now "1985-03-10" (Date 1985 3 10 0) eq_refl)
    by (cbn; lia).
  rewrite (dob_violation_past now "1985-04-10" (Date 1985 4 10 0) eq_refl)
    by (cbn; lia).
  reflexivity.
Qed.

End SystemTests.

Lemma system_tests_pass_witness :
  systemtests.main (λ _, errorsNew "") (Date 2026 10 30 43200000000000) []
  = (14, 0).
Proof.
  apply (system_tests_pass (λ _, errorsNew "") (Date 2026 10 30 43200000000000) []).
  - unfold timeext.valid, timeext.nanosPerDay. cbn. lia.
  - cbn. lia.
Defined.

(** ** Listing the users *)

Section Listing.

Import test listing.




End Listing.



(** ** Rules of the test program *)

Lemma append_cons x (a b : string) : String x a +:+ b = String x (a +:+ b).
Proof. reflexivity. Qed.

Lemma length_append (a b : string) :
  String.length (a +:+ b) = (String.length a + String.length b)%nat.
Proof.
  induction a as [|c a IH]; [reflexivity|].
  rewrite append_cons. cbn [String.length Nat.add]. f_equal. exact IH.
Qed.

Lemma append_assoc (a b c : string) : (a +:+ b) +:+ c = a +:+ (b +:+ c).
Proof.
  induction a as [|x a IH]; [reflexivity|].
  rewrite !append_cons. f_equal. exact IH.
Qed.

Lemma append_empty (s : string) : s +:+ "" = s.
Proof.
  induction s as [|c s IH]; [reflexivity|].
  rewrite append_cons. f_equal. exact IH.
Qed.

Lemma iter_append char n s :
  Nat.iter n (λ result, result +:+ char) s
  = s +:+ Nat.iter n (λ result, result +:+ char) "".
Proof.
  induction n as [|n IH]; rewrite ?Nat.iter_succ.
  - cbn [Nat.iter nat_rect]. symmetry. apply append_empty.
  - rewrite IH, append_assoc. reflexivity.
Qed.

(** X21: [repeatChar(char, count)] is [count] copies of [char]: its length
    is [count] times that of [char], a count of zero or less gives the empty
    string, and counts add up. *)
Theorem repeatChar_length (char : string) (count count' : Z) :
  String.length (systemtests.repeatChar char count)
  = (Z.to_nat count * String.length char)%nat
  ∧ (count <= 0 → systemtests.repeatChar char count = "")
  ∧ (0 <= count → 0 <= count' →
     systemtests.repeatChar char (count + count')
     = systemtests.repeatChar char count'
       +:+ systemtests.repeatChar char count).
Proof.
  unfold systemtests.repeatChar. split; [|split].
  - induction (Z.to_nat count) as [|n IH]; [reflexivity|].
    rewrite Nat.iter_succ, length_append, IH. lia.
  - intros Hc. replace (Z.to_nat count) with 0%nat by lia. reflexivity.
  - intros Hc Hc'. rewrite Z2Nat.inj_add, Nat.iter_add by lia.
    apply iter_append.
Qed.

Lemma repeatChar_length_witness :
  systemtests.repeatChar "=" (-3) = "".
Proof.
  apply (proj1 (proj2 (repeatChar_length "=" (-3) 0))). lia.
Defined.

(** ** The calls a request makes *)

Section Calls.

Context {R : Type} `{repository.UserRepository R}.

Import repository.

Ltac traced_handler :=
  unfold handler.GetUser, handler.CreateUser, handler.UpdateUser,
    handler.DeleteUser, service.GetUser, service.CreateUser,
    service.UpdateUser, service.DeleteUser;
  cbn [GetUser CreateUser UpdateUser DeleteUser Traced_UserRepository];
  unfold traced;
  repeat match goal with
         | |- context [validator.ValidateStruct ?x] =>
             destruct (validator.ValidateStruct x)
         | |- context [Parse ?x] => destruct (Parse x)
         | |- context [GetUser ?a ?r] => destruct (GetUser a r) as [[?|?] ?]
         | |- context [CreateUser ?a ?r] =>
             destruct (CreateUser a r) as [[?|?] ?]
         | |- context [UpdateUser ?a ?r] =>
             destruct (UpdateUser a r) as [[?|?] ?]
         | |- context [DeleteUser ?a ?r] => destruct (DeleteUser a r) as [[?|] ?]
         end;
  cbn [fst snd inner calls]; rewrite ?app_nil_r; auto.

(** X22: a request calls the repository at most once, and only the method
    of its handler.  On a repository that records its calls, whatever the
    repository behind it: a get or delete with a readable id adds that one
    call, with the id converted to 32 bits; a create or update adds one
    call, with the name of the request and its parsed date, when the body
    passes validation, and none otherwise; and the answer and the store
    behind are what they are without the record. *)
Theorem one_call_per_request
  (nowV now : Time) (id : option Z) (create : option CreateUserRequest.t)
  (update : option UpdateUserRequest.t) (t : Traced R) :
  (let out := handler.GetUser now id t in
   calls (snd out)
   = calls t ++ match id with
                | Some id => [CallGetUser (int32 id)]
                | None => []
                end
   ∧ (fst out, inner (snd out)) = handler.GetUser now id (inner t))
  ∧ (let out := handler.DeleteUser id t in
     calls (snd out)
     = calls t ++ match id with
                  | Some id => [CallDeleteUser (int32 id)]
                  | None => []
                  end
     ∧ (fst out, inner (snd out)) = handler.DeleteUser id (inner t))
  ∧ (let out := handler.CreateUser nowV now create t in
     calls (snd out)
     = calls t
       ++ match create with
          | Some req =>
              match validator.ValidateStruct (CreateUserRequest.fields nowV req),
                    Parse (CreateUserRequest.DOB req) with
              | None, Some dob =>
                  [CallCreateUser
                     {| CreateUserParams.Name := CreateUserRequest.Name req;
                        CreateUserParams.Dob := dob |}]
              | _, _ => []
              end
          | None => []
          end
     ∧ (fst out, inner (snd out))
       = handler.CreateUser nowV now create (inner t))
  ∧ (let out := handler.UpdateUser nowV now id update t in
     calls (snd out)
     = calls t
       ++ match id, update with
          | Some id, Some req =>
              match validator.ValidateStruct (UpdateUserRequest.fields nowV req),
                    Parse (UpdateUserRequest.DOB req) with
              | None, Some dob =>
                  [CallUpdateUser
                     {| UpdateUserParams.ID := int32 id;
                        UpdateUserParams.Name := UpdateUserRequest.Name req;
                        UpdateUserParams.Dob := dob |}]
              | _, _ => []
              end
          | _, _ => []
          end
     ∧ (fst out, inner (snd out))
       = handler.UpdateUser nowV now id update (inner t)).
Proof.
  cbv zeta. split; [|split; [|split]].
  - destruct id; traced_handler.
  - destruct id; traced_handler.
  - destruct create; traced_handler.
  - destruct id, update; traced_handler.
Qed.

End Calls.
